(** * EIP76D true random number generator driver (plat-k3)

    A shallow embedding of [core/arch/arm/plat-k3/drivers/eip76d_trng.c]:
    the register map, the bring-up sequence, the 128-bit block read with
    its polling loop and oscillator recovery, the byte FIFO behind
    [hw_get_random_bytes], and the initialisation entry point.

    The driver talks to its environment through three interfaces: 32-bit
    register accesses, the physical-to-virtual translation, and a mutex.
    The first two are the fields of the class [Platform]; the mutex is a
    boolean of the driver state, with the meaning it has in a run of one
    thread.  Every register access is appended to a bus trace, so that
    statements about what the driver reads and writes, and in which
    order, are statements about that list. *)

From Stdlib Require Import ZArith List Lia.
From stdpp Require Import base gmap list strings.

Local Open Scope Z_scope.

(** ** Fixed-width integers *)

(** [uint32_t]: arithmetic modulo 2^32. *)
Definition u32 (x : Z) : Z := x mod 2 ^ 32.

(** [vaddr_t] is [uintptr_t]; plat-k3 is an AArch64 platform, so sums of
    addresses wrap at 2^64. *)
Definition vaddr_add (a b : Z) : Z := (a + b) mod 2 ^ 64.

(** Modelled from the spec: the macro [BIT] comes from [util.h], which is
    not among the sources; section 4.1 names READY as bit 0, SHUTDOWN_OFLO
    as bit 1 and ENABLE as bit 10, that is [BIT(n)] is the word with only
    bit [n] set. *)
Definition BIT (nr : Z) : Z := u32 (Z.shiftl 1 nr).

(** Modelled from the spec: the macro [GENMASK_32] comes from [util.h],
    which is not among the sources; section 4.1 gives the 24-bit mask of
    bits 23..0 as 0x00FFFFFF, that is [GENMASK_32(h, l)] is the word with
    exactly the bits [l..h] set. *)
Definition GENMASK_32 (h l : Z) : Z :=
  Z.land (u32 (Z.shiftl (Z.ones 32) l)) (Z.shiftr (Z.ones 32) (32 - 1 - h)).

(** Modelled from the spec: [TEE_Result] and [TEE_SUCCESS] come from the
    TEE API headers, which are not among the sources; section 6 speaks of
    success and of a failure indicator.  [TEE_Result] is a 32-bit code and
    success is the code zero. *)
Definition TEE_Result : Type := Z.
Definition TEE_SUCCESS : TEE_Result := 0.

(** ** Register map (lines 22-60 of the source) *)

Definition RNG_OUTPUT_0 : Z := 0x00.
Definition RNG_OUTPUT_1 : Z := 0x04.
Definition RNG_OUTPUT_2 : Z := 0x08.
Definition RNG_OUTPUT_3 : Z := 0x0C.
Definition RNG_STATUS : Z := 0x10.
Definition RNG_READY : Z := BIT 0.
Definition SHUTDOWN_OFLO : Z := BIT 1.
Definition RNG_INTACK : Z := 0x10.
Definition RNG_CONTROL : Z := 0x14.
Definition ENABLE_TRNG : Z := BIT 10.
Definition RNG_CONFIG : Z := 0x18.
Definition RNG_ALARMCNT : Z := 0x1C.
Definition RNG_FROENABLE : Z := 0x20.
Definition RNG_FRODETUNE : Z := 0x24.
Definition RNG_ALARMMASK : Z := 0x28.
Definition RNG_ALARMSTOP : Z := 0x2C.
Definition RNG_OPTIONS : Z := 0x78.
Definition RNG_EIP_REV : Z := 0x7C.

Definition RNG_CONTROL_STARTUP_CYCLES_SHIFT : Z := 16.
Definition RNG_CONTROL_STARTUP_CYCLES_MASK : Z := GENMASK_32 31 16.

Definition RNG_CONFIG_MAX_REFIL_CYCLES_SHIFT : Z := 16.
Definition RNG_CONFIG_MAX_REFIL_CYCLES_MASK : Z := GENMASK_32 31 16.
Definition RNG_CONFIG_MIN_REFIL_CYCLES_SHIFT : Z := 0.
Definition RNG_CONFIG_MIN_REFIL_CYCLES_MASK : Z := GENMASK_32 7 0.

Definition RNG_CONFIG_MIN_REFIL_CYCLES : Z := 0x5.
Definition RNG_CONFIG_MAX_REFIL_CYCLES : Z := 0x22.

Definition RNG_FRO_MASK : Z := GENMASK_32 23 0.

(** ** The platform *)

(** The memory area passed to the address translation. *)
Inductive teecore_memtypes : Type :=
  | MEM_AREA_IO_SEC
  | MEM_AREA_IO_NSEC.

(** What the driver takes from the platform: a device behind the bus,
    which answers a 32-bit read at an address with a value and a new
    state and takes a 32-bit write; the translation [phys_to_virt], whose
    result is the null address 0 when the translation fails; and the
    constants [RNG_BASE] and [RNG_REG_SIZE] of [platform_config.h]. *)
Class Platform : Type := {
  dev : Type;
  dev_read32 : dev -> Z -> Z * dev;
  dev_write32 : dev -> Z -> Z -> dev;
  phys_to_virt : Z -> teecore_memtypes -> Z -> Z;
  RNG_BASE : Z;
  RNG_REG_SIZE : Z
}.

(** One access on the bus, with the address and the 32-bit value. *)
Inductive io_event : Type :=
  | IoRead (addr val : Z)
  | IoWrite (addr val : Z).

Section Driver.

Context {P : Platform}.

(** ** Driver state

    [rng], [fifo_lock], [fifo] and [fifo_pos] are the four statics of the
    source.  [fifo] is the storage of the union, sixteen bytes; its
    [val] view is laid over these bytes in little-endian order, the byte
    order of the platform.  [ram] is the memory of the callers, a map
    from addresses to bytes; the statics are not part of it, since no
    caller holds a pointer to them.  [console] collects the messages of
    [DMSG] and [IMSG]. *)
Record world : Type := World {
  device : dev;
  bus_trace : list io_event;
  console : list string;
  ram : gmap Z Z;
  rng : Z;
  fifo_lock : bool;
  fifo : list Z;
  fifo_pos : Z
}.

(** The state at boot: statics are zero-initialised, the mutex is free
    ([MUTEX_INITIALIZER]). *)
Definition boot (d : dev) (m : gmap Z Z) : world :=
  World d [] [] m 0 false (replicate 16 0) 0.

(** ** Outcomes and the driver monad

    A computation either returns a value and a state, or does not come
    back within the polls it was given ([Stall]: the busy-wait of the
    block read, or a mutex that is never released), or leaves the
    behaviour defined by C ([Fault]: an index outside the FIFO). *)
Inductive outcome (A : Type) : Type :=
  | Ret (a : A) (w : world)
  | Stall
  | Fault.

Arguments Ret {A} a w.
Arguments Stall {A}.
Arguments Fault {A}.

Definition M (A : Type) : Type := world -> outcome A.

Definition ret {A} (a : A) : M A := fun w => Ret a w.

Definition bind {A B} (m : M A) (k : A -> M B) : M B :=
  fun w => match m w with
           | Ret a w' => k a w'
           | Stall => Stall
           | Fault => Fault
           end.

Notation "x <- c ;; k" := (bind c (fun x => k))
  (at level 100, c at next level, right associativity).
Notation "c ;;; k" := (bind c (fun _ => k))
  (at level 100, right associativity).

(** ** Primitive operations *)

Definition set_bus (d : dev) (e : io_event) (w : world) : world :=
  World d (bus_trace w ++ [e]) (console w) (ram w) (rng w)
        (fifo_lock w) (fifo w) (fifo_pos w).

Definition set_console (c : list string) (w : world) : world :=
  World (device w) (bus_trace w) c (ram w) (rng w)
        (fifo_lock w) (fifo w) (fifo_pos w).

Definition set_ram (m : gmap Z Z) (w : world) : world :=
  World (device w) (bus_trace w) (console w) m (rng w)
        (fifo_lock w) (fifo w) (fifo_pos w).

Definition set_rng (a : Z) (w : world) : world :=
  World (device w) (bus_trace w) (console w) (ram w) a
        (fifo_lock w) (fifo w) (fifo_pos w).

Definition set_fifo_lock (b : bool) (w : world) : world :=
  World (device w) (bus_trace w) (console w) (ram w) (rng w)
        b (fifo w) (fifo_pos w).

Definition set_fifo (f : list Z) (w : world) : world :=
  World (device w) (bus_trace w) (console w) (ram w) (rng w)
        (fifo_lock w) f (fifo_pos w).

Definition set_fifo_pos (p : Z) (w : world) : world :=
  World (device w) (bus_trace w) (console w) (ram w) (rng w)
        (fifo_lock w) (fifo w) p.

(** [io_read32]: one read on the bus; the result is a [uint32_t]. *)
Definition io_read32 (addr : Z) : M Z :=
  fun w => let (v, d) := dev_read32 (device w) addr in
           Ret (u32 v) (set_bus d (IoRead addr (u32 v)) w).

(** [io_write32]: one write on the bus of a [uint32_t]. *)
Definition io_write32 (addr val : Z) : M unit :=
  fun w => Ret tt (set_bus (dev_write32 (device w) addr (u32 val))
                           (IoWrite addr (u32 val)) w).

(** [DMSG] and [IMSG]: a line on the console. *)
Definition trace_msg (s : string) : M unit :=
  fun w => Ret tt (set_console (console w ++ [s]) w).

(** [mutex_lock(&fifo_lock)]: in a run of one thread a mutex that is
    held is never released, so taking it again does not return. *)
Definition mutex_lock : M unit :=
  fun w => if fifo_lock w then Stall else Ret tt (set_fifo_lock true w).

Definition mutex_unlock : M unit :=
  fun w => Ret tt (set_fifo_lock false w).

(** The address of the register at offset [off]: [rng + off]. *)
Definition reg (off : Z) : M Z :=
  fun w => Ret (vaddr_add (rng w) off) w.

(** The four bytes of a 32-bit word, least significant first. *)
Definition le_bytes (v : Z) : list Z :=
  [Z.land v 0xff;
   Z.land (Z.shiftr v 8) 0xff;
   Z.land (Z.shiftr v 16) 0xff;
   Z.land (Z.shiftr v 24) 0xff].

(** [fifo.val[k] = v]: the word overwrites bytes [4k .. 4k+3]. *)
Definition store_fifo_val (k : nat) (v : Z) : M unit :=
  fun w => Ret tt (set_fifo (list_inserts (4 * k) (le_bytes v) (fifo w)) w).

(** [fifo.byte[i]]: an index outside the sixteen bytes is undefined. *)
Definition load_fifo_byte (i : Z) : M Z :=
  fun w => if (0 <=? i) && (i <? 16) then
             match fifo w !! Z.to_nat i with
             | Some b => Ret b w
             | None => Fault
             end
           else Fault.

(** [buffer[i] = b], a store at address [a] of the caller of a byte [b]
    taken from the FIFO. *)
Definition store_byte (a b : Z) : M unit :=
  fun w => Ret tt (set_ram (<[a := b]> (ram w)) w).

(** ** The driver *)

(** [eip76d_rng_is_enabled] (lines 67-70). *)
Definition eip76d_rng_is_enabled : M bool :=
  a <- reg RNG_CONTROL ;;
  v <- io_read32 a ;;
  ret (negb (Z.land v ENABLE_TRNG =? 0)).

(** The value written to CONFIG (lines 74-78). *)
Definition init_seq_config : Z :=
  let val := 0 in
  let val := Z.lor val (u32 (Z.shiftl RNG_CONFIG_MIN_REFIL_CYCLES
                                      RNG_CONFIG_MIN_REFIL_CYCLES_SHIFT)) in
  let val := Z.lor val (u32 (Z.shiftl RNG_CONFIG_MAX_REFIL_CYCLES
                                      RNG_CONFIG_MAX_REFIL_CYCLES_SHIFT)) in
  val.

(** [eip76d_rng_init_seq] (lines 72-88). *)
Definition eip76d_rng_init_seq : M unit :=
  a <- reg RNG_CONFIG ;;
  io_write32 a init_seq_config ;;;
  a <- reg RNG_FRODETUNE ;;
  io_write32 a 0x0 ;;;
  a <- reg RNG_FROENABLE ;;
  io_write32 a 0xffffff ;;;
  a <- reg RNG_CONTROL ;;
  io_write32 a ENABLE_TRNG.

(** The body of the test at line 99: the recovery of the oscillators
    (lines 100-113). *)
Definition fro_recover : M unit :=
  a <- reg RNG_ALARMSTOP ;;
  alarm <- io_read32 a ;;
  a <- reg RNG_FRODETUNE ;;
  tune <- io_read32 a ;;
  a <- reg RNG_ALARMMASK ;;
  io_write32 a 0x0 ;;;
  a <- reg RNG_ALARMSTOP ;;
  io_write32 a 0x0 ;;;
  a <- reg RNG_FRODETUNE ;;
  io_write32 a (Z.lxor tune alarm) ;;;
  a <- reg RNG_FROENABLE ;;
  io_write32 a RNG_FRO_MASK ;;;
  a <- reg RNG_INTACK ;;
  io_write32 a SHUTDOWN_OFLO ;;;
  trace_msg "Fixed FRO shutdown"%string.

(** The loop of lines 97-115.  Each turn reads STATUS for the guard and,
    when READY is clear, reads STATUS again for the overflow test.
    [fuel] bounds the number of turns. *)
Fixpoint poll_ready (fuel : nat) : M unit :=
  match fuel with
  | O => fun _ => Stall
  | S fuel' =>
      a <- reg RNG_STATUS ;;
      s <- io_read32 a ;;
      if negb (Z.land s RNG_READY =? 0) then ret tt
      else
        a <- reg RNG_STATUS ;;
        s' <- io_read32 a ;;
        (if negb (Z.land s' SHUTDOWN_OFLO =? 0) then fro_recover
         else ret tt) ;;;
        poll_ready fuel'
  end.

(** Lines 117-122: the four output words, then the acknowledgement. *)
Definition drain_and_ack : M (Z * Z * Z * Z) :=
  a <- reg RNG_OUTPUT_0 ;;
  word0 <- io_read32 a ;;
  a <- reg RNG_OUTPUT_1 ;;
  word1 <- io_read32 a ;;
  a <- reg RNG_OUTPUT_2 ;;
  word2 <- io_read32 a ;;
  a <- reg RNG_OUTPUT_3 ;;
  word3 <- io_read32 a ;;
  a <- reg RNG_INTACK ;;
  io_write32 a RNG_READY ;;;
  ret (word0, word1, word2, word3).

(** Lines 93-94: bring the device up when it is not enabled. *)
Definition ensure_enabled : M unit :=
  en <- eip76d_rng_is_enabled ;;
  if negb en then eip76d_rng_init_seq else ret tt.

(** [eip76d_rng_read128] (lines 90-123).  The four out-parameters are
    the result. *)
Definition eip76d_rng_read128 (fuel : nat) : M (Z * Z * Z * Z) :=
  ensure_enabled ;;;
  poll_ready fuel ;;;
  drain_and_ack.

(** The refill of lines 139-141: the block read writes through the four
    pointers [&fifo.val[0] .. &fifo.val[3]]. *)
Definition refill (fuel : nat) : M unit :=
  ws <- eip76d_rng_read128 fuel ;;
  let '(word0, word1, word2, word3) := ws in
  store_fifo_val 0 word0 ;;;
  store_fifo_val 1 word1 ;;;
  store_fifo_val 2 word2 ;;;
  store_fifo_val 3 word3.

(** One turn of the loop of [hw_get_random_bytes] (lines 136-146).
    [fifo_pos++] cannot wrap: the index has just been used and is below
    sixteen. *)
Definition fetch_byte (fuel : nat) (buffer buffer_pos : Z) : M unit :=
  mutex_lock ;;;
  (fun w => (if fifo_pos w =? 0 then refill fuel else ret tt) w) ;;;
  b <- (fun w => load_fifo_byte (fifo_pos w) w) ;;
  store_byte (buffer + buffer_pos) b ;;;
  (fun w => Ret tt (set_fifo_pos ((fifo_pos w + 1) mod 16) w)) ;;;
  mutex_unlock.

(** The loop of lines 135-147; [todo] is [len - buffer_pos], the number
    of turns the guard [buffer_pos < len] lets through. *)
Fixpoint fetch_loop (fuel : nat) (buffer : Z) (todo : nat) (buffer_pos : Z)
  : M unit :=
  match todo with
  | O => ret tt
  | S todo' =>
      fetch_byte fuel buffer buffer_pos ;;;
      fetch_loop fuel buffer todo' (buffer_pos + 1)
  end.

(** [hw_get_random_bytes] (lines 125-150). *)
Definition hw_get_random_bytes (fuel : nat) (buf len : Z) : M TEE_Result :=
  fetch_loop fuel buf (Z.to_nat len) 0 ;;;
  ret TEE_SUCCESS.

(** [eip76d_rng_init] (lines 152-161). *)
Definition eip76d_rng_init : M TEE_Result :=
  (fun w => Ret tt (set_rng (phys_to_virt RNG_BASE MEM_AREA_IO_SEC RNG_REG_SIZE)
                            w)) ;;;
  eip76d_rng_init_seq ;;;
  trace_msg "EIP76D TRNG initialized"%string ;;;
  ret TEE_SUCCESS.

End Driver.

Arguments Ret {P A} a w.
Arguments Stall {P A}.
Arguments Fault {P A}.

(** ** A register model of the device

    The register model against which the properties of section 8 of the
    specification are read: the configuration registers are latches,
    STATUS and INTACK share offset 0x10, a write to INTACK clears the
    status bits it names, and acknowledging READY moves the next four
    words of the entropy feed into the output registers.  The device
    raises READY one STATUS read after it was found clear.  The window
    of [window_size] bytes sits at the virtual address [window]; outside
    of it reads give zero and writes are lost. *)
Module Mock.

Record state : Type := State {
  regs : gmap Z Z;
  status : Z;
  feed : list Z
}.

Definition window : Z := 0x7E910000.
Definition window_size : Z := 0x1000.

Definition decode (addr : Z) : option Z :=
  if (window <=? addr) && (addr <? window + window_size)
  then Some (addr - window) else None.

Definition read (d : state) (addr : Z) : Z * state :=
  match decode addr with
  | None => (0, d)
  | Some off =>
      if off =? RNG_STATUS
      then (status d, State (regs d) (Z.lor (status d) RNG_READY) (feed d))
      else (default 0 (regs d !! off), d)
  end.

(** The next block of the feed, when four words are left. *)
Definition next_block (d : state) : gmap Z Z * list Z :=
  match feed d with
  | a :: b :: c :: e :: rest =>
      (<[RNG_OUTPUT_3 := e]> (<[RNG_OUTPUT_2 := c]>
         (<[RNG_OUTPUT_1 := b]> (<[RNG_OUTPUT_0 := a]> (regs d)))), rest)
  | _ => (regs d, feed d)
  end.

Definition write (d : state) (addr val : Z) : state :=
  match decode addr with
  | None => d
  | Some off =>
      if off =? RNG_INTACK
      then
        let st := Z.ldiff (status d) val in
        if negb (Z.land val RNG_READY =? 0)
        then let (r, f) := next_block d in State r st f
        else State (regs d) st (feed d)
      else State (<[off := val]> (regs d)) (status d) (feed d)
  end.

(** The platform with this device, where the translation of the
    physical base gives [va]: [window] when the mapping is there, the
    null address when it is not. *)
Definition platform (va : Z) : Platform := {|
  dev := state;
  dev_read32 := read;
  dev_write32 := write;
  phys_to_virt := fun _ _ _ => va;
  RNG_BASE := 0x40910000;
  RNG_REG_SIZE := window_size
|}.

(** The device after reset, with the words [ws] as its entropy: the
    first four are in the output registers. *)
Definition power_on (ws : list Z) : state :=
  let (r, f) := next_block (State ∅ 0 ws) in State r 0 f.

End Mock.

(** ** Reading the bus trace *)

Definition is_output (base a : Z) : bool :=
  (a =? vaddr_add base RNG_OUTPUT_0) || (a =? vaddr_add base RNG_OUTPUT_1)
  || (a =? vaddr_add base RNG_OUTPUT_2) || (a =? vaddr_add base RNG_OUTPUT_3).

(** An event is a read of one of the four output registers. *)
Definition is_output_read (base : Z) (e : io_event) : bool :=
  match e with
  | IoRead a _ => is_output base a
  | IoWrite _ _ => false
  end.

(** A stretch of the trace without a read of an output register. *)
Definition quiet (base : Z) (evs : list io_event) : Prop :=
  Forall (fun e => is_output_read base e = false) evs.

(** An event is a read of OUTPUT_0: each block read has exactly one. *)
Definition is_block_start (base : Z) (e : io_event) : bool :=
  match e with
  | IoRead a _ => a =? vaddr_add base RNG_OUTPUT_0
  | IoWrite _ _ => false
  end.

(** The number of block reads in a stretch of the trace. *)
Definition block_reads (base : Z) (tr : list io_event) : nat :=
  length (List.filter (is_block_start base) tr).

(** The entropy one event took from the device. *)
Definition entropy_of (base : Z) (e : io_event) : list Z :=
  match e with
  | IoRead a v => if is_output base a then le_bytes v else []
  | IoWrite _ _ => []
  end.

(** The entropy a stretch of the trace took from the device: the bytes
    of the output words read, in the order of the reads. *)
Definition produced (base : Z) (tr : list io_event) : list Z :=
  List.flat_map (entropy_of base) tr.

(** The sixteen bytes of four output words. *)
Definition block_bytes (ws : Z * Z * Z * Z) : list Z :=
  let '(a, b, c, d) := ws in
  le_bytes a ++ le_bytes b ++ le_bytes c ++ le_bytes d.

(** [store_bytes a bs m]: the memory [m] after the bytes [bs] were
    stored from address [a] upwards. *)
Fixpoint store_bytes (a : Z) (bs : list Z) (m : gmap Z Z) : gmap Z Z :=
  match bs with
  | [] => m
  | b :: bs' => store_bytes (a + 1) bs' (<[a := b]> m)
  end.

(** The four writes of the bring-up sequence, with the driver pointing
    at [base]. *)
Definition bring_up (base : Z) : list io_event :=
  [IoWrite (vaddr_add base RNG_CONFIG) 0x00220005;
   IoWrite (vaddr_add base RNG_FRODETUNE) 0;
   IoWrite (vaddr_add base RNG_FROENABLE) 0x00FFFFFF;
   IoWrite (vaddr_add base RNG_CONTROL) 0x400].

(** [ceil_div a b] is the least integer not below [a / b]. *)
Definition ceil_div (a b : Z) : Z := (a + b - 1) / b.

(** ** The bus protocol of a block read *)

(** The seven accesses of the recovery of lines 100-111, where the
    snapshots of ALARMSTOP and FRODETUNE are [alarm] and [tune]. *)
Definition recovery (base alarm tune : Z) : list io_event :=
  [IoRead (vaddr_add base RNG_ALARMSTOP) alarm;
   IoRead (vaddr_add base RNG_FRODETUNE) tune;
   IoWrite (vaddr_add base RNG_ALARMMASK) 0;
   IoWrite (vaddr_add base RNG_ALARMSTOP) 0;
   IoWrite (vaddr_add base RNG_FRODETUNE) (Z.lxor tune alarm);
   IoWrite (vaddr_add base RNG_FROENABLE) 0x00FFFFFF;
   IoWrite (vaddr_add base RNG_INTACK) SHUTDOWN_OFLO].

(** What the loop of lines 97-115 leaves on the bus: turns that found
    READY clear, each with its two reads of STATUS and, when the second
    showed SHUTDOWN_OFLO, a recovery; then the read of STATUS that
    showed READY. *)
Inductive poll_trace (base : Z) : list io_event -> Prop :=
  | poll_ready_seen s :
      Z.land s RNG_READY <> 0 ->
      poll_trace base [IoRead (vaddr_add base RNG_STATUS) s]
  | poll_turn_idle s s' rest :
      Z.land s RNG_READY = 0 -> Z.land s' SHUTDOWN_OFLO = 0 ->
      poll_trace base rest ->
      poll_trace base
        (IoRead (vaddr_add base RNG_STATUS) s ::
         IoRead (vaddr_add base RNG_STATUS) s' :: rest)
  | poll_turn_recover s s' alarm tune rest :
      Z.land s RNG_READY = 0 -> Z.land s' SHUTDOWN_OFLO <> 0 ->
      poll_trace base rest ->
      poll_trace base
        (IoRead (vaddr_add base RNG_STATUS) s ::
         IoRead (vaddr_add base RNG_STATUS) s' ::
         recovery base alarm tune ++ rest).

(** What one block read (lines 90-123) leaves on the bus: the read of
    CONTROL, the bring-up when ENABLE was clear, the polling, the four
    output words and the acknowledgement of READY. *)
Inductive block_trace (base : Z) : list io_event -> Prop :=
  | block_trace_intro control polls a b c d :
      poll_trace base polls ->
      block_trace base
        (IoRead (vaddr_add base RNG_CONTROL) control ::
         (if Z.land control ENABLE_TRNG =? 0 then bring_up base else []) ++
         polls ++
         [IoRead (vaddr_add base RNG_OUTPUT_0) a;
          IoRead (vaddr_add base RNG_OUTPUT_1) b;
          IoRead (vaddr_add base RNG_OUTPUT_2) c;
          IoRead (vaddr_add base RNG_OUTPUT_3) d;
          IoWrite (vaddr_add base RNG_INTACK) RNG_READY]).

(** An event is a write to INTACK that names READY. *)
Definition is_ready_ack (base : Z) (e : io_event) : bool :=
  match e with
  | IoRead _ _ => false
  | IoWrite a v =>
      (a =? vaddr_add base RNG_INTACK) && negb (Z.land v RNG_READY =? 0)
  end.

(** The number of acknowledgements of READY in a stretch of the trace. *)
Definition ready_acks (base : Z) (tr : list io_event) : nat :=
  length (List.filter (is_ready_ack base) tr).

(** The number of reads of output registers in a stretch of the trace. *)
Definition output_reads (base : Z) (tr : list io_event) : nat :=
  length (List.filter (is_output_read base) tr).

(** Every element is a byte. *)
Definition byte_list (l : list Z) : Prop := Forall (fun b => 0 <= b < 256) l.

Arguments vaddr_add : simpl never.
Arguments u32 : simpl never.

Section Assertions.

Context {P : Platform}.

(** The invariant of the driver state between two calls: the mutex is
    free, the FIFO has its sixteen bytes, the cursor is below sixteen. *)
Definition wf (w : world) : Prop :=
  fifo_lock w = false /\ length (fifo w) = 16%nat /\ 0 <= fifo_pos w < 16.

(** The bytes of the FIFO that were read from the device and not yet
    handed out.  At cursor 0 there are none: the FIFO is refilled before
    its next use. *)
Definition pending (w : world) : list Z :=
  if fifo_pos w =? 0 then [] else drop (Z.to_nat (fifo_pos w)) (fifo w).

(** The device after it saw the events [evs]. *)
Fixpoint replay (d : dev) (evs : list io_event) : dev :=
  match evs with
  | [] => d
  | IoRead a _ :: evs' => replay (snd (dev_read32 d a)) evs'
  | IoWrite a v :: evs' => replay (dev_write32 d a v) evs'
  end.

(** Every read among [evs] carries the value the device answered. *)
Fixpoint faithful (d : dev) (evs : list io_event) : Prop :=
  match evs with
  | [] => True
  | IoRead a v :: evs' =>
      v = u32 (fst (dev_read32 d a)) /\ faithful (snd (dev_read32 d a)) evs'
  | IoWrite a v :: evs' => faithful (dev_write32 d a v) evs'
  end.

(** [bus_only w w' evs]: from [w] to [w'] the bus saw the events [evs],
    which took the device to its state in [w'], and none of the statics
    or of the callers' memory changed. *)
Definition bus_only (w w' : world) (evs : list io_event) : Prop :=
  bus_trace w' = bus_trace w ++ evs /\ ram w' = ram w /\ rng w' = rng w /\
  fifo_lock w' = fifo_lock w /\ fifo w' = fifo w /\ fifo_pos w' = fifo_pos w /\
  device w' = replay (device w) evs /\ faithful (device w) evs.

(** The device answers the block read: from every state of the device
    that satisfies [good], with the driver pointing at [base], the block
    read returns within [K] polls and leaves the device in [good]. *)
Definition responsive (K : nat) (base : Z) (good : dev -> Prop) : Prop :=
  forall w, rng w = base -> good (device w) ->
    exists ws w', eip76d_rng_read128 K w = Ret ws w' /\ good (device w').

(** [sat p o Q]: the outcome [o] is not a fault; when it is a return,
    value and state satisfy [Q]; when it is a stall, [p] holds.  With
    [p := True] this is what a call guarantees if it comes back, with
    [p := False] it says that the call comes back. *)
Definition sat {A} (p : Prop) (o : outcome A) (Q : A -> world -> Prop)
  : Prop :=
  match o with
  | Ret a w' => Q a w'
  | Stall => p
  | Fault => False
  end.

(** What [todo] turns of the loop of [hw_get_random_bytes], storing from
    index [bp] of the buffer at [buf], make of [w]: the invariant holds
    again, the device handle is the same, the bus saw the events [delta]
    and the buffer got the bytes [bs]; the cursor advanced by [todo]
    modulo sixteen; the bytes handed out and the bytes still pending are
    the bytes that were pending and the bytes read from the device; the
    number of block reads is as many multiples of sixteen as the cursor
    passed; each block read took sixteen bytes; and without a block read
    the FIFO is the same. *)
Definition fetched (buf bp : Z) (todo : nat) (w w' : world) : Prop :=
  exists bs delta,
    wf w' /\ rng w' = rng w /\ bus_trace w' = bus_trace w ++ delta /\
    length bs = todo /\ ram w' = store_bytes (buf + bp) bs (ram w) /\
    fifo_pos w' = (fifo_pos w + Z.of_nat todo) mod 16 /\
    bs ++ pending w' = pending w ++ produced (rng w) delta /\
    Z.of_nat (block_reads (rng w) delta) =
      ceil_div (fifo_pos w + Z.of_nat todo) 16 - ceil_div (fifo_pos w) 16 /\
    length (produced (rng w) delta) = (16 * block_reads (rng w) delta)%nat /\
    (block_reads (rng w) delta = 0%nat -> fifo w' = fifo w).

(** Calls of [hw_get_random_bytes] one after the other, from [w] to
    [w'], each with the bytes it stored in the buffer of its caller. *)
Inductive calls (fuel : nat) : world -> list (list Z) -> world -> Prop :=
  | calls_nil w : calls fuel w [] w
  | calls_cons w buf len w1 bs rest w2 :
      0 <= len ->
      hw_get_random_bytes fuel buf len w = Ret TEE_SUCCESS w1 ->
      length bs = Z.to_nat len ->
      ram w1 = store_bytes buf bs (ram w) ->
      calls fuel w1 rest w2 ->
      calls fuel w (bs :: rest) w2.

End Assertions.

(** The state a call left behind, or [w] when it did not return. *)
Definition world_of {P : Platform} {A} (o : outcome A) (w : world) : world :=
  match o with
  | Ret _ w' => w'
  | _ => w
  end.

(** The value a call returned, if it did. *)
Definition returned {P : Platform} {A} (o : outcome A) : option A :=
  match o with
  | Ret a _ => Some a
  | _ => None
  end.

(** ** Scenarios on the register model *)
Module Scenario.

(** The device is mapped at its window. *)
Abbreviation mapped := (Mock.platform Mock.window).

(** The translation of the physical base fails. *)
Abbreviation unmapped := (Mock.platform 0).

Definition entropy : list Z :=
  [0x03020100; 0x07060504; 0x0B0A0908; 0x0F0E0D0C;
   0xDEADBEEF; 0; 0; 0;
   0x13121110; 0x17161514; 0x1B1A1918; 0x1F1E1D1C].

(** Cold start, before [eip76d_rng_init]. *)
Definition cold : @world mapped := @boot mapped (Mock.power_on entropy) ∅.

Definition cold_unmapped : @world unmapped :=
  @boot unmapped (Mock.power_on entropy) ∅.

(** After [eip76d_rng_init]. *)
Definition ready : @world mapped := world_of (eip76d_rng_init cold) cold.

(** After a first fetch of ten bytes: the cursor is at 10. *)
Definition after_ten : @world mapped :=
  world_of (hw_get_random_bytes 2 0x1000 10 ready) ready.

(** After a first fetch of fifteen bytes: the cursor is at 15. *)
Definition after_fifteen : @world mapped :=
  world_of (hw_get_random_bytes 2 0x1000 15 ready) ready.

(** The device reports a shutdown overflow, with ALARMSTOP = 0xA5 and
    FRODETUNE = 0; the driver holds the mutex, as within a block read. *)
Definition overflow : @world mapped :=
  @World mapped
    (Mock.State (<[RNG_ALARMSTOP := 0xA5]> (<[RNG_FRODETUNE := 0]>
                   (<[RNG_CONTROL := ENABLE_TRNG]> ∅)))
                SHUTDOWN_OFLO [])
    [] [] ∅ Mock.window true (replicate 16 0) 0.


(** After initialisation and one read of STATUS: READY is up. *)
Definition polled : @world mapped :=
  world_of (io_read32 (vaddr_add Mock.window RNG_STATUS) ready) ready.

End Scenario.

(** * Properties *)

(** Closes [0 <= off < 2 ^ 64] for the offset of a register. *)
Ltac off_range := vm_compute; split; congruence.

Section Properties.

Context {P : Platform}.

Notation "x <- c ;; k" := (bind c (fun x => k))
  (at level 100, c at next level, right associativity).
Notation "c ;;; k" := (bind c (fun _ => k))
  (at level 100, right associativity).

(** *** The monad *)

Lemma bind_ret_inv {A B} (m : M A) (k : A -> M B) w b w' :
  bind m k w = Ret b w' ->
  exists a w1, m w = Ret a w1 /\ k a w1 = Ret b w'.
Proof.
  unfold bind. destruct (m w) as [a w1| |] eqn:E; try discriminate.
  intros H. exists a, w1. split; [reflexivity | exact H].
Qed.

Lemma bind_run {A B} (m : M A) (k : A -> M B) w a w1 :
  m w = Ret a w1 -> bind m k w = k a w1.
Proof. unfold bind. intros ->. reflexivity. Qed.

Lemma returned_world_of {A} (o : outcome A) a w :
  returned o = Some a -> o = Ret a (world_of o w).
Proof. destruct o; cbn; congruence. Qed.

Lemma sat_ret_inv {A} p (o : outcome A) Q a w' :
  sat p o Q -> o = Ret a w' -> Q a w'.
Proof. intros H ->. exact H. Qed.

Lemma sat_returns {A} (o : outcome A) Q :
  sat False o Q -> exists a w', o = Ret a w' /\ Q a w'.
Proof. destruct o; cbn; [eauto | tauto | tauto]. Qed.

Lemma sat_weaken {A} (p p' : Prop) (o : outcome A) (Q Q' : A -> world -> Prop) :
  sat p o Q -> (p -> p') -> (forall a w', Q a w' -> Q' a w') -> sat p' o Q'.
Proof. destruct o; cbn; auto. Qed.

Lemma sat_both {A} (p : Prop) (o : outcome A) (Q Q' : A -> world -> Prop) :
  sat p o Q -> sat True o Q' -> sat p o (fun a w' => Q a w' /\ Q' a w').
Proof. destruct o; cbn; auto. Qed.

Lemma sat_bind {A B} p (m : M A) (k : A -> M B) w Q :
  sat p (m w) (fun a w1 => sat p (k a w1) Q) -> sat p (bind m k w) Q.
Proof. unfold bind. destruct (m w); cbn; auto. Qed.

Lemma sat_ret {A} p (a : A) w (Q : A -> world -> Prop) :
  Q a w -> sat p (ret a w) Q.
Proof. intros H. exact H. Qed.

(** *** Addresses *)

Lemma vaddr_add_inj base x y :
  0 <= x < 2 ^ 64 -> 0 <= y < 2 ^ 64 ->
  vaddr_add base x = vaddr_add base y -> x = y.
Proof.
  unfold vaddr_add. intros Hx Hy H.
  pose proof (Z.div_mod (base + x) (2 ^ 64) ltac:(lia)) as E1.
  pose proof (Z.div_mod (base + y) (2 ^ 64) ltac:(lia)) as E2.
  rewrite H in E1.
  set (q1 := (base + x) / 2 ^ 64) in *. set (q2 := (base + y) / 2 ^ 64) in *.
  set (r := (base + y) mod 2 ^ 64) in *. clearbody q1 q2 r. clear H.
  change (2 ^ 64) with 18446744073709551616 in *. lia.
Qed.

Lemma vaddr_eqb base x y :
  0 <= x < 2 ^ 64 -> 0 <= y < 2 ^ 64 ->
  (vaddr_add base x =? vaddr_add base y) = (x =? y).
Proof.
  intros Hx Hy. destruct (Z.eqb_spec x y) as [->|N].
  - apply Z.eqb_refl.
  - apply Z.eqb_neq. intros E. apply N. eapply vaddr_add_inj; eauto.
Qed.

Lemma is_output_reg base off :
  0 <= off < 2 ^ 64 ->
  is_output base (vaddr_add base off) =
  (off =? RNG_OUTPUT_0) || (off =? RNG_OUTPUT_1) || (off =? RNG_OUTPUT_2)
  || (off =? RNG_OUTPUT_3).
Proof.
  intros H. unfold is_output.
  rewrite !vaddr_eqb by (try exact H; off_range).
  reflexivity.
Qed.

Lemma is_output_read_reg base off v :
  0 <= off < 2 ^ 64 ->
  is_output_read base (IoRead (vaddr_add base off) v) =
  (off =? RNG_OUTPUT_0) || (off =? RNG_OUTPUT_1) || (off =? RNG_OUTPUT_2)
  || (off =? RNG_OUTPUT_3).
Proof. apply is_output_reg. Qed.

Lemma u32_lxor a b :
  0 <= a < 2 ^ 32 -> 0 <= b < 2 ^ 32 -> u32 (Z.lxor a b) = Z.lxor a b.
Proof.
  intros Ha Hb. unfold u32.
  rewrite <- (Z.mod_small a (2 ^ 32)) at 2 by exact Ha.
  rewrite <- (Z.mod_small b (2 ^ 32)) at 2 by exact Hb.
  rewrite <- !Z.land_ones by lia.
  apply Z.bits_inj'. intros n Hn.
  rewrite Z.land_spec, !Z.lxor_spec, !Z.land_spec.
  destruct (Z.testbit (Z.ones 32) n);
    rewrite ?andb_true_r, ?andb_false_r; reflexivity.
Qed.

Lemma u32_bit0 x : Z.testbit x 0 = true -> Z.land (u32 x) RNG_READY <> 0.
Proof.
  intros Hx E.
  assert (T : Z.testbit (Z.land (u32 x) RNG_READY) 0 = true).
  { rewrite Z.land_spec. unfold u32. rewrite <- Z.land_ones by lia.
    rewrite Z.land_spec, Hx. reflexivity. }
  rewrite E in T. discriminate T.
Qed.

(** *** Register accesses *)

Lemma replay_app d e1 e2 : replay d (e1 ++ e2) = replay (replay d e1) e2.
Proof.
  revert d. induction e1 as [|[a v|a v] e1 IH]; intros d; cbn; auto.
Qed.

Lemma faithful_app d e1 e2 :
  faithful d (e1 ++ e2) <-> faithful d e1 /\ faithful (replay d e1) e2.
Proof.
  revert d. induction e1 as [|[a v|a v] e1 IH]; intros d; cbn.
  - tauto.
  - rewrite IH. tauto.
  - apply IH.
Qed.

Lemma bus_only_refl w : bus_only w w [].
Proof. unfold bus_only. rewrite app_nil_r. cbn. tauto. Qed.

Lemma bus_only_trans w w1 w2 e1 e2 :
  bus_only w w1 e1 -> bus_only w1 w2 e2 -> bus_only w w2 (e1 ++ e2).
Proof.
  unfold bus_only.
  intros (T1 & A1 & B1 & C1 & D1 & E1 & F1 & G1)
         (T2 & A2 & B2 & C2 & D2 & E2 & F2 & G2).
  rewrite T2, T1, A2, B2, C2, D2, E2, F2, <- app_assoc, replay_app, faithful_app.
  rewrite <- F1. tauto.
Qed.

Lemma io_read32_run a w :
  exists v w', io_read32 a w = Ret v w' /\ bus_only w w' [IoRead a v] /\
    0 <= v < 2 ^ 32 /\ console w' = console w.
Proof.
  unfold io_read32. destruct (dev_read32 (device w) a) as [v d] eqn:E.
  eexists _, _. split; [reflexivity|]. unfold bus_only. cbn. rewrite E. cbn.
  repeat split; try reflexivity; unfold u32; apply Z.mod_pos_bound; lia.
Qed.

Lemma io_write32_run a v w :
  exists w', io_write32 a v w = Ret tt w' /\ bus_only w w' [IoWrite a (u32 v)] /\
    console w' = console w.
Proof.
  unfold io_write32. eexists. split; [reflexivity|]. unfold bus_only. cbn.
  repeat split; reflexivity.
Qed.

(** The next lemmas run one step of straight-line register code and
    keep, in [bus_only w0 _ evs], what the bus saw since [w0]. *)
Lemma sat_reg {B} p off (k : Z -> M B) w0 w evs Q :
  bus_only w0 w evs ->
  sat p (k (vaddr_add (rng w0) off) w) Q -> sat p (bind (reg off) k w) Q.
Proof. intros (_ & _ & R & _) H. unfold bind, reg. rewrite R. exact H. Qed.

Lemma sat_read {B} p a (k : Z -> M B) w0 w evs Q :
  bus_only w0 w evs ->
  (forall v w1, bus_only w0 w1 (evs ++ [IoRead a v]) -> 0 <= v < 2 ^ 32 ->
                sat p (k v w1) Q) ->
  sat p (bind (io_read32 a) k w) Q.
Proof.
  intros B0 H. destruct (io_read32_run a w) as (v & w1 & E & Hb & Hv & _).
  rewrite (bind_run _ _ _ _ _ E). eauto using bus_only_trans.
Qed.

Lemma sat_write {B} p a v (k : unit -> M B) w0 w evs Q :
  bus_only w0 w evs ->
  (forall w1, bus_only w0 w1 (evs ++ [IoWrite a (u32 v)]) ->
              sat p (k tt w1) Q) ->
  sat p (bind (io_write32 a v) k w) Q.
Proof.
  intros B0 H. destruct (io_write32_run a v w) as (w1 & E & Hb & _).
  rewrite (bind_run _ _ _ _ _ E). eauto using bus_only_trans.
Qed.

Lemma sat_write_end p a v w0 w evs (Q : unit -> world -> Prop) :
  bus_only w0 w evs ->
  (forall w1, bus_only w0 w1 (evs ++ [IoWrite a (u32 v)]) -> Q tt w1) ->
  sat p (io_write32 a v w) Q.
Proof.
  intros B0 H. destruct (io_write32_run a v w) as (w1 & E & Hb & _).
  rewrite E. cbn. eauto using bus_only_trans.
Qed.

Lemma sat_msg p s w0 w evs (Q : unit -> world -> Prop) :
  bus_only w0 w evs ->
  (forall w1, bus_only w0 w1 evs -> Q tt w1) ->
  sat p (trace_msg s w) Q.
Proof. intros B0 H. cbn. apply H. exact B0. Qed.

End Properties.

Ltac bus_step B :=
  first
    [ eapply sat_reg; [exact B|]
    | eapply sat_read; [exact B|]; clear B; intros ? ? B ?
    | eapply sat_write; [exact B|]; clear B; intros ? B
    | eapply sat_write_end; [exact B|]; clear B; intros ? B
    | eapply sat_msg; [exact B|]; clear B; intros ? B ].

Ltac sat_use L :=
  eapply sat_weaken; [apply L | exact (fun x => x) | cbn beta].

Ltac no_output :=
  repeat first
    [ apply Forall_nil_2
    | apply Forall_cons_2;
      [ first [ reflexivity
              | rewrite is_output_read_reg by off_range; reflexivity ] | ]
    | apply Forall_app_2 ];
  try assumption.

Section DriverProperties.

Context {P : Platform}.

Lemma init_seq_sat p w0 w evs :
  bus_only w0 w evs ->
  sat p (eip76d_rng_init_seq w) (fun _ w' =>
    bus_only w0 w'
      (evs ++
      [IoWrite (vaddr_add (rng w0) RNG_CONFIG) 0x00220005;
       IoWrite (vaddr_add (rng w0) RNG_FRODETUNE) 0;
       IoWrite (vaddr_add (rng w0) RNG_FROENABLE) 0x00ffffff;
       IoWrite (vaddr_add (rng w0) RNG_CONTROL) 0x400])).
Proof.
  intros B. unfold eip76d_rng_init_seq.
  do 8 bus_step B. 
  repeat rewrite <- app_assoc in B. exact B.
Qed.

Lemma fro_recover_sat p w0 w evs :
  bus_only w0 w evs ->
  sat p (fro_recover w) (fun _ w' => exists alarm tune,
    0 <= alarm < 2 ^ 32 /\ 0 <= tune < 2 ^ 32 /\
    bus_only w0 w'
      (evs ++
      [IoRead (vaddr_add (rng w0) RNG_ALARMSTOP) alarm;
       IoRead (vaddr_add (rng w0) RNG_FRODETUNE) tune;
       IoWrite (vaddr_add (rng w0) RNG_ALARMMASK) 0;
       IoWrite (vaddr_add (rng w0) RNG_ALARMSTOP) 0;
       IoWrite (vaddr_add (rng w0) RNG_FRODETUNE) (Z.lxor tune alarm);
       IoWrite (vaddr_add (rng w0) RNG_FROENABLE) 0x00ffffff;
       IoWrite (vaddr_add (rng w0) RNG_INTACK) 0x2])).
Proof.
  intros B. unfold fro_recover.
  bus_step B. bus_step B. rename v into alarm. bus_step B. bus_step B. rename v into tune.
  do 11 bus_step B.
  exists alarm, tune. repeat rewrite <- app_assoc in B.
  rewrite u32_lxor in B by assumption. auto.
Qed.

Lemma drain_and_ack_sat p w0 w evs :
  bus_only w0 w evs ->
  sat p (drain_and_ack w) (fun ws w' => exists a b c d,
    ws = (a, b, c, d) /\
    (0 <= a < 2 ^ 32 /\ 0 <= b < 2 ^ 32 /\ 0 <= c < 2 ^ 32 /\ 0 <= d < 2 ^ 32) /\
    bus_only w0 w'
      (evs ++
      [IoRead (vaddr_add (rng w0) RNG_OUTPUT_0) a;
       IoRead (vaddr_add (rng w0) RNG_OUTPUT_1) b;
       IoRead (vaddr_add (rng w0) RNG_OUTPUT_2) c;
       IoRead (vaddr_add (rng w0) RNG_OUTPUT_3) d;
       IoWrite (vaddr_add (rng w0) RNG_INTACK) 0x1])).
Proof.
  intros B. unfold drain_and_ack.
  bus_step B. bus_step B. rename v into a.
  bus_step B. bus_step B. rename v into b.
  bus_step B. bus_step B. rename v into c.
  bus_step B. bus_step B. rename v into d.
  bus_step B. bus_step B. cbn.
  exists a, b, c, d. repeat rewrite <- app_assoc in B. auto 10.
Qed.







Lemma poll_ready_sat fuel : forall w0 w evs,
  bus_only w0 w evs ->
  sat True (poll_ready fuel w) (fun _ w' => exists mid s,
    bus_only w0 w' (evs ++ mid ++ [IoRead (vaddr_add (rng w0) RNG_STATUS) s]) /\
    Z.land s RNG_READY <> 0 /\ quiet (rng w0) mid).
Proof.
  induction fuel as [|fuel IH]; intros w0 w evs B; cbn [poll_ready].
  - exact I.
  - bus_step B. bus_step B. rename v into s.
    destruct (Z.land s RNG_READY =? 0) eqn:T; cbn [negb].
    + bus_step B. bus_step B. rename v into s2.
      apply sat_bind.
      destruct (Z.land s2 SHUTDOWN_OFLO =? 0) eqn:T2; cbn [negb].
      * apply sat_ret. sat_use (IH _ _ _ B).
        intros _ w' (mid & s' & B' & R' & Q').
        exists ([IoRead (vaddr_add (rng w0) RNG_STATUS) s;
                 IoRead (vaddr_add (rng w0) RNG_STATUS) s2] ++ mid), s'.
        repeat rewrite <- app_assoc in B'. split; [exact B'|].
        split; [exact R'|]. unfold quiet in *. no_output.
      * sat_use (fro_recover_sat True _ _ _ B).
        intros _ w3 (alarm & tune & _ & _ & B3).
        sat_use (IH _ _ _ B3).
        intros _ w' (mid & s' & B' & R' & Q').
        exists ([IoRead (vaddr_add (rng w0) RNG_STATUS) s;
                 IoRead (vaddr_add (rng w0) RNG_STATUS) s2;
                 IoRead (vaddr_add (rng w0) RNG_ALARMSTOP) alarm;
                 IoRead (vaddr_add (rng w0) RNG_FRODETUNE) tune;
                 IoWrite (vaddr_add (rng w0) RNG_ALARMMASK) 0;
                 IoWrite (vaddr_add (rng w0) RNG_ALARMSTOP) 0;
                 IoWrite (vaddr_add (rng w0) RNG_FRODETUNE) (Z.lxor tune alarm);
                 IoWrite (vaddr_add (rng w0) RNG_FROENABLE) 0xffffff;
                 IoWrite (vaddr_add (rng w0) RNG_INTACK) 0x2] ++ mid), s'.
        repeat rewrite <- app_assoc in B'. split; [exact B'|].
        split; [exact R'|]. unfold quiet in *. no_output.
    + apply sat_ret. exists [], s. split; [exact B|]. split.
      * apply Z.eqb_neq. exact T.
      * constructor.
Qed.

Lemma ensure_enabled_sat p w0 w evs :
  bus_only w0 w evs ->
  sat p (ensure_enabled w) (fun _ w' => exists mid,
    bus_only w0 w' (evs ++ mid) /\ quiet (rng w0) mid).
Proof.
  intros B. unfold ensure_enabled, eip76d_rng_is_enabled.
  apply sat_bind. bus_step B. bus_step B. apply sat_ret.
  destruct (Z.land v ENABLE_TRNG =? 0); cbn [negb].
  - sat_use (init_seq_sat p _ _ _ B).
    intros _ w' B'. eexists (_ :: _). rewrite <- app_assoc in B'.
    split; [exact B'|]. unfold quiet. no_output.
  - apply sat_ret. eexists [_]. split; [exact B|]. unfold quiet. no_output.
Qed.

Lemma read128_sat fuel w :
  sat True (eip76d_rng_read128 fuel w) (fun ws w' => exists pre s a b c d,
    ws = (a, b, c, d) /\
    (0 <= a < 2 ^ 32 /\ 0 <= b < 2 ^ 32 /\ 0 <= c < 2 ^ 32 /\ 0 <= d < 2 ^ 32) /\
    Z.land s RNG_READY <> 0 /\ quiet (rng w) pre /\
    bus_only w w'
      (pre ++
      [IoRead (vaddr_add (rng w) RNG_STATUS) s;
       IoRead (vaddr_add (rng w) RNG_OUTPUT_0) a;
       IoRead (vaddr_add (rng w) RNG_OUTPUT_1) b;
       IoRead (vaddr_add (rng w) RNG_OUTPUT_2) c;
       IoRead (vaddr_add (rng w) RNG_OUTPUT_3) d;
       IoWrite (vaddr_add (rng w) RNG_INTACK) 0x1])).
Proof.
  unfold eip76d_rng_read128. apply sat_bind.
  sat_use (ensure_enabled_sat True _ _ _ (bus_only_refl w)).
  intros _ w1 (m1 & B1 & Q1). apply sat_bind.
  sat_use (poll_ready_sat fuel _ _ _ B1).
  intros _ w2 (m2 & s & B2 & R & Q2).
  sat_use (drain_and_ack_sat True _ _ _ B2).
  intros ws w' (a & b & c & d & -> & Hr & B').
  exists (m1 ++ m2), s, a, b, c, d.
  repeat rewrite <- app_assoc in B'. cbn in B'.
  repeat (split; [first [reflexivity | assumption | apply Forall_app_2; assumption]|]).
  rewrite <- app_assoc. exact B'.
Qed.

(** *** The byte FIFO *)

Lemma block_reads_app base e1 e2 :
  block_reads base (e1 ++ e2) = (block_reads base e1 + block_reads base e2)%nat.
Proof. unfold block_reads. rewrite List.filter_app, length_app. reflexivity. Qed.

Lemma produced_app base e1 e2 :
  produced base (e1 ++ e2) = produced base e1 ++ produced base e2.
Proof. unfold produced. apply flat_map_app. Qed.

Lemma is_block_start_output base e :
  is_block_start base e = true -> is_output_read base e = true.
Proof.
  destruct e as [a v|a v]; cbn; [|discriminate].
  unfold is_output. intros ->. reflexivity.
Qed.

Lemma quiet_block_reads base evs : quiet base evs -> block_reads base evs = 0%nat.
Proof.
  unfold quiet, block_reads. induction 1 as [|e evs He _ IH]; [reflexivity|].
  cbn. destruct (is_block_start base e) eqn:E; [|exact IH].
  apply is_block_start_output in E. congruence.
Qed.

Lemma quiet_produced base evs : quiet base evs -> produced base evs = [].
Proof.
  unfold quiet, produced. induction 1 as [|e evs He _ IH]; [reflexivity|].
  cbn. rewrite IH, app_nil_r. destruct e as [a v|a v]; [|reflexivity].
  cbn in *. rewrite He. reflexivity.
Qed.

Lemma length_block_bytes ws : length (block_bytes ws) = 16%nat.
Proof. destruct ws as [[[a b] c] d]. reflexivity. Qed.

Lemma refill_fifo a b c d (f : list Z) :
  length f = 16%nat ->
  list_inserts (4 * 3) (le_bytes d)
    (list_inserts (4 * 2) (le_bytes c)
       (list_inserts (4 * 1) (le_bytes b)
          (list_inserts (4 * 0) (le_bytes a) f))) = block_bytes (a, b, c, d).
Proof.
  intros H. do 17 (destruct f as [|? f]; try discriminate H). reflexivity.
Qed.

(** What one block read leaves in the trace. *)
Lemma read128_summary fuel w :
  sat True (eip76d_rng_read128 fuel w) (fun ws w' => exists delta,
    bus_only w w' delta /\ block_reads (rng w) delta = 1%nat /\
    produced (rng w) delta = block_bytes ws).
Proof.
  sat_use (read128_sat fuel w).
  intros ws w' (pre & s & a & b & c & d & -> & _ & _ & Q & B).
  eexists. split; [exact B|].
  rewrite block_reads_app, produced_app, quiet_block_reads, quiet_produced by exact Q.
  unfold block_reads, produced. cbn [List.filter List.flat_map is_block_start entropy_of].
  rewrite !is_output_reg by off_range.
  rewrite !vaddr_eqb by off_range. split; reflexivity.
Qed.

Lemma fetch_byte_sat p fuel buf bp w :
  wf w ->
  (fifo_pos w = 0 ->
   sat p (eip76d_rng_read128 fuel (set_fifo_lock true w)) (fun _ _ => True)) ->
  sat p (fetch_byte fuel buf bp w) (fun _ w1 => exists b delta,
    wf w1 /\ rng w1 = rng w /\ bus_trace w1 = bus_trace w ++ delta /\
    ram w1 = <[buf + bp := b]> (ram w) /\
    fifo_pos w1 = (fifo_pos w + 1) mod 16 /\
    b :: pending w1 = pending w ++ produced (rng w) delta /\
    block_reads (rng w) delta = (if fifo_pos w =? 0 then 1%nat else 0%nat) /\
    (fifo_pos w <> 0 /\ device w1 = device w /\ fifo w1 = fifo w /\
       delta = [] \/
     fifo_pos w = 0 /\ exists ws wr,
       eip76d_rng_read128 fuel (set_fifo_lock true w) = Ret ws wr /\
       device w1 = device wr /\ fifo w1 = block_bytes ws /\
       produced (rng w) delta = block_bytes ws)).
Proof.
  intros (L & Len & Rg) Hread. unfold fetch_byte.
  unfold bind at 1. unfold mutex_lock. rewrite L.
  apply sat_bind. cbn [fifo_pos set_fifo_lock].
  destruct (fifo_pos w =? 0) eqn:Z0.
  - apply Z.eqb_eq in Z0. specialize (Hread Z0).
    unfold refill. apply sat_bind.
    destruct (eip76d_rng_read128 fuel (set_fifo_lock true w)) as [ws wr| |] eqn:E.
    2:{ exact Hread. }
    2:{ pose proof (read128_summary fuel (set_fifo_lock true w)) as X.
        rewrite E in X. exact X. }
    pose proof (read128_summary fuel (set_fifo_lock true w)) as X.
    rewrite E in X. cbn [sat] in X. destruct X as (delta & B & BR & PR).
    destruct B as (T & Bram & Brng & Block & Bfifo & Bpos & _).
    cbn [sat]. destruct ws as [[[a b] c] d].
    cbn in T, Bram, Brng, Block, Bfifo, Bpos, BR, PR.
    unfold bind, store_fifo_val, load_fifo_byte, store_byte, mutex_unlock.
    cbn -[list_inserts le_bytes block_bytes Z.modulo Z.land Z.shiftr Z.leb Z.ltb
          Z.to_nat Nat.mul].
    rewrite Bfifo, refill_fifo by exact Len. rewrite Bpos, Z0.
    change ((0 <=? 0) && (0 <? 16)) with true. cbv iota.
    change (block_bytes (a, b, c, d) !! Z.to_nat 0) with (Some (Z.land a 0xff)).
    cbv iota beta.
    exists (Z.land a 0xff), delta.
    unfold wf, pending.
    cbn -[list_inserts le_bytes block_bytes Z.modulo Z.land Z.shiftr Z.leb Z.ltb
          Z.to_nat Nat.mul].
    rewrite ?Bpos, ?Z0, ?Bram, ?Brng, ?PR. change ((0 + 1) mod 16) with 1.
    change (1 =? 0) with false. change (0 =? 0) with true. cbv iota.
    repeat split; try assumption; try lia; try reflexivity.
    right. split; [reflexivity|]. exists (a, b, c, d), wr. auto.
  - apply Z.eqb_neq in Z0. apply sat_ret.
    unfold bind, load_fifo_byte, store_byte, mutex_unlock.
    cbn [fifo_pos set_fifo_lock fifo].
    replace ((0 <=? fifo_pos w) && (fifo_pos w <? 16)) with true by lia.
    destruct (lookup_lt_is_Some_2 (fifo w) (Z.to_nat (fifo_pos w))) as [b Hb]; [lia|].
    rewrite Hb. cbn.
    exists b, []. unfold wf, pending. cbn.
    assert (0 <= (fifo_pos w + 1) mod 16 < 16) by (apply Z.mod_pos_bound; lia).
    destruct (fifo_pos w =? 0) eqn:Z1; [lia|].
    repeat split; try assumption; try lia; try reflexivity; try tauto.
    { symmetry. apply app_nil_r. }
    rewrite app_nil_r, (drop_S _ _ _ Hb). f_equal.
    destruct ((fifo_pos w + 1) mod 16 =? 0) eqn:Z2.
    + apply Z.eqb_eq in Z2. symmetry. apply drop_ge.
      assert (fifo_pos w = 15) by (clear - Rg Z2; Z.div_mod_to_equations; lia).
      lia.
    + apply Z.eqb_neq in Z2. f_equal.
      assert (fifo_pos w <> 15)
        by (intros E15; rewrite E15 in Z2; apply Z2; reflexivity).
      rewrite Z.mod_small by lia. lia.
Qed.

Lemma refill_count c n :
  0 <= c < 16 -> 0 <= n ->
  (if c =? 0 then 1 else 0) +
  (ceil_div ((c + 1) mod 16 + n) 16 - ceil_div ((c + 1) mod 16) 16) =
  ceil_div (c + (n + 1)) 16 - ceil_div c 16.
Proof.
  intros Hc Hn. unfold ceil_div.
  destruct (Z.eqb_spec c 0) as [->|N]; Z.div_mod_to_equations; lia.
Qed.

Section Loop.

Variables (p : Prop) (fuel : nat) (base : Z) (good : dev -> Prop).
Hypothesis Hread : forall w, rng w = base -> good (device w) ->
  sat p (eip76d_rng_read128 fuel w) (fun _ w' => good (device w')).

Lemma fetch_loop_sat buf : forall todo bp w,
  wf w -> rng w = base -> good (device w) ->
  sat p (fetch_loop fuel buf todo bp w) (fun _ w' =>
    good (device w') /\ fetched buf bp todo w w').
Proof.
  induction todo as [|todo IH]; intros bp w Hwf Hrng Hgood; cbn [fetch_loop].
  - apply sat_ret. split; [exact Hgood|]. exists [], [].
    destruct Hwf as (L & Len & Rg).
    rewrite !app_nil_r, Z.add_0_r, Z.mod_small by exact Rg.
    repeat split; try assumption; try reflexivity; try lia.
    cbn. lia.
  - apply sat_bind.
    assert (Hr : sat p (eip76d_rng_read128 fuel (set_fifo_lock true w))
                   (fun _ w' => good (device w'))).
    { apply Hread; [exact Hrng | exact Hgood]. }
    eapply sat_weaken;
      [ apply (fetch_byte_sat p fuel buf bp w Hwf);
        intros _; sat_use Hr; auto
      | exact (fun x => x) | cbn beta ].
    intros _ w1 (b & d1 & Hwf1 & R1 & T1 & M1 & P1 & C1 & B1 & Hdev).
    assert (Hgood1 : good (device w1)).
    { destruct Hdev as [(_ & D & _) | (_ & ws & wr & E & D & _)].
      - rewrite D. exact Hgood.
      - rewrite E in Hr. rewrite D. exact Hr. }
    sat_use (IH (bp + 1) w1 Hwf1 (eq_trans R1 Hrng) Hgood1).
    intros _ w'
      (Hgood' & bs & d2 & Hwf' & R' & T' & Lbs & M' & P' & C' & B' & N' & F').
    split; [exact Hgood'|]. exists (b :: bs), (d1 ++ d2).
    rewrite R1 in *.
    split; [exact Hwf'|]. split; [exact R'|].
    split; [rewrite T', T1, app_assoc; reflexivity|].
    split; [cbn; congruence|].
    split; [rewrite M', M1, Z.add_assoc; reflexivity|].
    split.
    { rewrite P', P1. destruct Hwf as (_ & _ & Rg). clear - Rg.
      rewrite Nat2Z.inj_succ. rewrite Zplus_mod_idemp_l. f_equal. lia. }
    split.
    { rewrite produced_app, app_assoc, <- C1. cbn. rewrite C'. reflexivity. }
    split.
    { rewrite block_reads_app, Nat2Z.inj_add, B', B1, P1.
      destruct Hwf as (_ & _ & Rg).
      replace (Z.of_nat (S todo)) with (Z.of_nat todo + 1) by lia.
      rewrite <- (refill_count (fifo_pos w) (Z.of_nat todo)) by lia.
      destruct (fifo_pos w =? 0); reflexivity. }
    split.
    { rewrite produced_app, block_reads_app, length_app, N', B1.
      destruct Hdev as [(Hp & _ & _ & ->) | (Hp & ws & wr & _ & _ & _ & ->)].
      - apply Z.eqb_neq in Hp. rewrite Hp. reflexivity.
      - rewrite Hp, length_block_bytes. cbn [Z.eqb]. lia. }
    rewrite block_reads_app, B1. intros Hz.
    destruct Hdev as [(_ & _ & Hf & _) | (Hp & _)].
    + rewrite <- Hf. apply F'. destruct (fifo_pos w =? 0); [discriminate Hz|].
      exact Hz.
    + rewrite Hp in Hz. discriminate Hz.
Qed.

End Loop.

(** *** Stores to the buffer of the caller *)

Lemma store_bytes_lookup bs : forall a (m : gmap Z Z) x,
  store_bytes a bs m !! x =
  if decide (a <= x < a + Z.of_nat (length bs))
  then bs !! Z.to_nat (x - a) else m !! x.
Proof.
  induction bs as [|b bs IH]; intros a m x; cbn [store_bytes length].
  - destruct (decide _); [lia | reflexivity].
  - rewrite IH. destruct (decide (a + 1 <= x < a + 1 + Z.of_nat (length bs))).
    + rewrite decide_True by lia.
      replace (Z.to_nat (x - a)) with (S (Z.to_nat (x - (a + 1)))) by lia.
      reflexivity.
    + destruct (decide (x = a)) as [->|N].
      * rewrite decide_True by lia. rewrite lookup_insert_eq, Z.sub_diag.
        reflexivity.
      * rewrite decide_False by lia. apply lookup_insert_ne. congruence.
Qed.

Lemma store_bytes_outside bs a (m : gmap Z Z) x :
  ~ (a <= x < a + Z.of_nat (length bs)) -> store_bytes a bs m !! x = m !! x.
Proof. intros H. rewrite store_bytes_lookup, decide_False by exact H. reflexivity. Qed.

Lemma store_bytes_inside bs a (m : gmap Z Z) (i : nat) :
  (i < length bs)%nat -> store_bytes a bs m !! (a + Z.of_nat i) = bs !! i.
Proof.
  intros H. rewrite store_bytes_lookup, decide_True by lia.
  f_equal. lia.
Qed.

Lemma store_bytes_inj bs bs' a (m : gmap Z Z) :
  length bs = length bs' ->
  store_bytes a bs m = store_bytes a bs' m -> bs = bs'.
Proof.
  intros L E. apply list_eq. intros i.
  destruct (decide (i < length bs)%nat) as [Hi|Hi].
  - rewrite <- (store_bytes_inside bs a m i Hi), E.
    apply store_bytes_inside. lia.
  - rewrite !lookup_ge_None_2 by lia. reflexivity.
Qed.

(** *** [hw_get_random_bytes] *)

Lemma read128_any fuel w :
  sat True (eip76d_rng_read128 fuel w) (fun _ _ => True).
Proof. sat_use (read128_sat fuel w). auto. Qed.

(** What a call guarantees when it returns. *)
Lemma hw_get_random_bytes_sat fuel buf len w :
  wf w ->
  sat True (hw_get_random_bytes fuel buf len w) (fun r w' =>
    r = TEE_SUCCESS /\ fetched buf 0 (Z.to_nat len) w w').
Proof.
  intros Hwf. unfold hw_get_random_bytes. apply sat_bind.
  sat_use (fetch_loop_sat True fuel (rng w) (fun _ => True)
             (fun w0 _ _ => read128_any fuel w0) buf (Z.to_nat len) 0 w
             Hwf eq_refl I).
  intros _ w' (_ & H). apply sat_ret. auto.
Qed.

(** A call returns when the device answers. *)
Lemma hw_get_random_bytes_returns K base good buf len w :
  responsive K base good ->
  wf w -> rng w = base -> good (device w) ->
  sat False (hw_get_random_bytes K buf len w) (fun r w' =>
    r = TEE_SUCCESS /\ good (device w') /\ fetched buf 0 (Z.to_nat len) w w').
Proof.
  intros Hresp Hwf Hrng Hgood. unfold hw_get_random_bytes. apply sat_bind.
  assert (Hread : forall w0, rng w0 = base -> good (device w0) ->
            sat False (eip76d_rng_read128 K w0) (fun _ w' => good (device w'))).
  { intros w0 H1 H2. destruct (Hresp w0 H1 H2) as (ws & w' & -> & G). exact G. }
  sat_use (fetch_loop_sat False K base good Hread buf (Z.to_nat len) 0 w
             Hwf Hrng Hgood).
  intros _ w' (G & H). apply sat_ret. auto.
Qed.

(** Turns that stay within the bytes at hand do not need the device. *)
Lemma fetch_loop_at_hand fuel buf : forall todo bp w,
  wf w -> todo = 0%nat \/ 0 < fifo_pos w /\ fifo_pos w + Z.of_nat todo <= 16 ->
  sat False (fetch_loop fuel buf todo bp w) (fun _ _ => True).
Proof.
  induction todo as [|todo IH]; intros bp w Hwf Hc; cbn [fetch_loop].
  - exact I.
  - destruct Hc as [Hc|(Hp & Hc)]; [discriminate Hc|].
    apply sat_bind.
    eapply sat_weaken;
      [ apply (fetch_byte_sat False fuel buf bp w Hwf); intros Hz; lia
      | exact (fun x => x) | cbn beta ].
    intros _ w1 (b & d1 & Hwf1 & _ & _ & _ & P1 & _).
    apply IH; [exact Hwf1|].
    destruct todo as [|todo]; [left; reflexivity|right].
    rewrite P1, Z.mod_small by lia. lia.
Qed.

Lemma fetch_byte_cursor fuel buf bp w w1 :
  fetch_byte fuel buf bp w = Ret tt w1 -> 0 <= fifo_pos w1 < 16.
Proof.
  unfold fetch_byte. intros H.
  apply bind_ret_inv in H. destruct H as (_ & wa & _ & H).
  apply bind_ret_inv in H. destruct H as (_ & wb & _ & H).
  apply bind_ret_inv in H. destruct H as (b & wc & _ & H).
  apply bind_ret_inv in H. destruct H as (_ & wd & _ & H).
  apply bind_ret_inv in H. destruct H as (u & we & He & H).
  unfold mutex_unlock in H.
  assert (E1 : w1 = set_fifo_lock false we) by congruence.
  assert (E2 : we = set_fifo_pos ((fifo_pos wd + 1) mod 16) wd) by congruence.
  rewrite E1, E2. cbn. apply Z.mod_pos_bound. lia.
Qed.

Lemma fetch_loop_cursor fuel buf : forall todo bp w w',
  0 <= fifo_pos w < 16 ->
  fetch_loop fuel buf todo bp w = Ret tt w' -> 0 <= fifo_pos w' < 16.
Proof.
  induction todo as [|todo IH]; intros bp w w' Hp H; cbn [fetch_loop] in H.
  - injection H as <-. exact Hp.
  - apply bind_ret_inv in H. destruct H as ([] & w1 & H1 & H).
    apply (IH _ _ _ (fetch_byte_cursor _ _ _ _ _ H1) H).
Qed.

Lemma calls_conserve fuel w bss w' :
  calls fuel w bss w' -> wf w ->
  wf w' /\ rng w' = rng w /\
  exists delta, bus_trace w' = bus_trace w ++ delta /\
    concat bss ++ pending w' = pending w ++ produced (rng w) delta.
Proof.
  induction 1 as [w|w buf len w1 bs rest w2 Hlen Hrun Hbs Hram _ IH]; intros Hwf.
  - split; [exact Hwf|]. split; [reflexivity|]. exists [].
    rewrite !app_nil_r. split; reflexivity.
  - pose proof (hw_get_random_bytes_sat fuel buf len w Hwf) as X.
    rewrite Hrun in X.
    destruct X as (_ & bs' & d1 & Hwf1 & R1 & T1 & L1 & M1 & _ & C1 & _).
    rewrite Z.add_0_r in M1.
    assert (bs' = bs) as ->.
    { apply (store_bytes_inj bs' bs buf (ram w)); congruence. }
    destruct (IH Hwf1) as (Hwf2 & R2 & d2 & T2 & C2).
    split; [exact Hwf2|]. split; [congruence|]. exists (d1 ++ d2).
    split; [rewrite T2, T1, app_assoc; reflexivity|].
    cbn [concat]. rewrite <- app_assoc, C2, R1, app_assoc, C1, <- app_assoc.
    rewrite produced_app. reflexivity.
Qed.

(** *** Initialisation and byte order *)

Lemma io_read32_inv a w v w1 :
  io_read32 a w = Ret v w1 -> bus_only w w1 [IoRead a v] /\ 0 <= v < 2 ^ 32.
Proof.
  intros H. destruct (io_read32_run a w) as (v' & w' & E & B & Hv & _).
  rewrite E in H. injection H as -> ->. auto.
Qed.

Lemma init_run w :
  exists w', eip76d_rng_init w = Ret TEE_SUCCESS w' /\
    rng w' = phys_to_virt RNG_BASE MEM_AREA_IO_SEC RNG_REG_SIZE /\
    bus_only (set_rng (phys_to_virt RNG_BASE MEM_AREA_IO_SEC RNG_REG_SIZE) w) w'
      [IoWrite (vaddr_add (rng w') RNG_CONFIG) 0x00220005;
       IoWrite (vaddr_add (rng w') RNG_FRODETUNE) 0;
       IoWrite (vaddr_add (rng w') RNG_FROENABLE) 0x00FFFFFF;
       IoWrite (vaddr_add (rng w') RNG_CONTROL) 0x400].
Proof.
  unfold eip76d_rng_init. unfold bind at 1.
  set (w0 := set_rng _ w).
  destruct (sat_returns _ _ (init_seq_sat False _ _ _ (bus_only_refl w0)))
    as ([] & w1 & E & B).
  rewrite (bind_run _ _ _ _ _ E). cbn [app] in B.
  eexists. split; [reflexivity|].
  destruct B as (T & A & R & L & F & Pp & D & Fa).
  split; [exact R|].
  unfold bus_only. cbn. rewrite R. auto 10.
Qed.

Lemma le_bytes_bits word (j : nat) :
  (j < 4)%nat ->
  exists byte, le_bytes word !! j = Some byte /\ 0 <= byte < 256 /\
    forall i, 0 <= i < 8 -> Z.testbit byte i = Z.testbit word (8 * Z.of_nat j + i).
Proof.
  intros Hj.
  assert (Low : forall x, 0 <= Z.land x 0xff < 256 /\
            forall i, 0 <= i < 8 -> Z.testbit (Z.land x 0xff) i = Z.testbit x i).
  { intros x. change 0xff with (Z.ones 8). rewrite Z.land_ones by lia.
    split; [apply Z.mod_pos_bound; lia|].
    intros i Hi. apply Z.mod_pow2_bits_low. lia. }
  destruct j as [|[|[|[|j]]]]; [| | | |lia]; cbn [le_bytes lookup list_lookup];
    eexists; (split; [reflexivity|]); (split; [apply Low|]); intros i Hi;
    rewrite (proj2 (Low _)) by exact Hi; rewrite ?Z.shiftr_spec by lia;
    f_equal; lia.
Qed.

Lemma block_bytes_lookup a b c d (k j : nat) word :
  [a; b; c; d] !! k = Some word -> (j < 4)%nat ->
  block_bytes (a, b, c, d) !! (4 * k + j)%nat = le_bytes word !! j.
Proof.
  intros Hk Hj.
  destruct k as [|[|[|[|k]]]]; cbn in Hk; try discriminate Hk;
    injection Hk as <-;
    (destruct j as [|[|[|[|j]]]]; [reflexivity..|lia]).
Qed.

End DriverProperties.


(** ** The register model answers the block read *)

Module MockFacts.
Import Mock.

Lemma decode_reg off :
  0 <= off < window_size -> decode (vaddr_add window off) = Some off.
Proof.
  intros H. unfold decode, vaddr_add, window, window_size in *.
  rewrite Z.mod_small by lia.
  replace ((2123431936 <=? 2123431936 + off) && (2123431936 + off <? 2123431936 + 4096))
    with true by lia.
  f_equal. lia.
Qed.

Lemma read_status d :
  read d (vaddr_add window RNG_STATUS) =
  (status d, State (regs d) (Z.lor (status d) RNG_READY) (feed d)).
Proof. unfold read. rewrite decode_reg by off_range. reflexivity. Qed.

Lemma read_latch d off :
  0 <= off < window_size -> off <> RNG_STATUS ->
  read d (vaddr_add window off) = (default 0 (regs d !! off), d).
Proof.
  intros H N. unfold read. rewrite decode_reg by exact H.
  destruct (Z.eqb_spec off RNG_STATUS); [contradiction | reflexivity].
Qed.

Lemma write_latch d off v :
  0 <= off < window_size -> off <> RNG_INTACK ->
  write d (vaddr_add window off) v =
  State (<[off := v]> (regs d)) (status d) (feed d).
Proof.
  intros H N. unfold write. rewrite decode_reg by exact H.
  destruct (Z.eqb_spec off RNG_INTACK); [contradiction | reflexivity].
Qed.

Lemma write_intack_oflo d :
  write d (vaddr_add window RNG_INTACK) (u32 SHUTDOWN_OFLO) =
  State (regs d) (Z.ldiff (status d) (u32 SHUTDOWN_OFLO)) (feed d).
Proof. unfold write. rewrite decode_reg by off_range. reflexivity. Qed.

Ltac mock_run :=
  cbn [replay faithful dev_read32 dev_write32 platform app];
  repeat first
    [ rewrite read_status
    | rewrite read_latch by (first [off_range | discriminate])
    | rewrite write_latch by (first [off_range | discriminate])
    | rewrite write_intack_oflo ];
  cbn [fst snd status regs feed].

Lemma poll_ready_returns va (w0 w : @world (platform va)) evs :
  rng w0 = window -> bus_only w0 w evs ->
  sat False (poll_ready 2 w) (fun _ _ => True).
Proof.
  intros Hr B. cbn [poll_ready].
  bus_step B. bus_step B. rename v into s1.
  destruct (Z.land s1 RNG_READY =? 0) eqn:T1; cbn [negb]; [|exact I].
  bus_step B. bus_step B. rename v into s2.
  apply sat_bind.
  destruct (Z.land s2 SHUTDOWN_OFLO =? 0) eqn:T2; cbn [negb].
  - apply sat_ret. bus_step B. bus_step B. rename v into s3.
    destruct (Z.land s3 RNG_READY =? 0) eqn:T3; cbn [negb]; [|exact I].
    exfalso. apply Z.eqb_eq in T3. revert T3.
    destruct B as (_ & _ & _ & _ & _ & _ & _ & F).
    rewrite Hr in F. rewrite !faithful_app in F.
    destruct F as (((_ & _) & F2) & F3). clear F2. revert F3.
    rewrite !replay_app. generalize (replay (device w0) evs). intros d.
    mock_run. intros (-> & _). apply u32_bit0.
    rewrite !Z.lor_spec. cbn. rewrite !orb_true_r. reflexivity.
  - sat_use (fro_recover_sat False _ _ _ B).
    intros _ w3 (alarm & tune & _ & _ & B3).
    bus_step B3. bus_step B3. rename v into s3.
    destruct (Z.land s3 RNG_READY =? 0) eqn:T3; cbn [negb]; [|exact I].
    exfalso. apply Z.eqb_eq in T3. revert T3.
    destruct B3 as (_ & _ & _ & _ & _ & _ & _ & F).
    rewrite Hr in F. rewrite !faithful_app in F.
    destruct F as (_ & F3). revert F3.
    rewrite !replay_app. generalize (replay (device w0) evs). intros d.
    mock_run. intros (-> & _). apply u32_bit0.
    rewrite Z.ldiff_spec, !Z.lor_spec. cbn. rewrite !orb_true_r. reflexivity.
Qed.
Lemma read128_responsive va :
  @responsive (platform va) 2 window (fun _ => True).
Proof.
  intros w Hr _.
  assert (X : sat False (eip76d_rng_read128 2 w) (fun _ _ => True)).
  { unfold eip76d_rng_read128. apply sat_bind.
    sat_use (ensure_enabled_sat False _ _ _ (bus_only_refl w)).
    intros _ w1 (m1 & B1 & _). apply sat_bind.
    sat_use (poll_ready_returns va w w1 _ Hr B1).
    intros _ w2 _.
    sat_use (drain_and_ack_sat False _ _ _ (bus_only_refl w2)).
    auto. }
  destruct (sat_returns _ _ X) as (ws & w' & E & _). eauto.
Qed.

Lemma bring_up_regs va (d : @dev (platform va)) :
  @replay (platform va) d (bring_up window) =
  State (<[RNG_CONTROL := 0x400]> (<[RNG_FROENABLE := 0x00FFFFFF]>
          (<[RNG_FRODETUNE := 0]> (<[RNG_CONFIG := 0x00220005]> (regs d)))))
        (status d) (feed d).
Proof. unfold bring_up. mock_run. reflexivity. Qed.

Lemma bring_up_twice va (d : @dev (platform va)) :
  @replay (platform va) (@replay (platform va) d (bring_up window))
          (bring_up window) =
  @replay (platform va) d (bring_up window).
Proof.
  rewrite !bring_up_regs. cbn [regs status feed]. f_equal.
  apply map_eq. intros k. rewrite !lookup_insert.
  repeat case_decide; reflexivity.
Qed.

Lemma wf_ready : wf Scenario.ready.
Proof. unfold wf; repeat split; vm_compute; congruence. Qed.

Lemma wf_after_ten : wf Scenario.after_ten.
Proof. unfold wf; repeat split; vm_compute; congruence. Qed.

Lemma wf_after_fifteen : wf Scenario.after_fifteen.
Proof. unfold wf; repeat split; vm_compute; congruence. Qed.

End MockFacts.

(** * The claims *)

Section Claims.

Context {P : Platform}.

(** C1, as amended.  A call that returns did, from cursor [c] and for
    [n] bytes, [ceil ((c + n) / 16) - ceil (c / 16)] block reads: one for
    every time the cursor is at zero when a byte is taken, hence
    [ceil (n / 16)] from cursor 0.  Over calls made one after the other,
    the bytes handed out, followed by the bytes still pending in the
    FIFO, are the bytes that were pending before, followed by the bytes
    read from the device: every byte is handed out once, in the order of
    the reads.  When the device answers, the call returns, with that
    number of block reads. *)
Theorem fifo_conservation :
  (forall fuel buf n w r w',
     wf w -> 0 <= n -> hw_get_random_bytes fuel buf n w = Ret r w' ->
     exists delta, bus_trace w' = bus_trace w ++ delta /\
       Z.of_nat (block_reads (rng w) delta) =
         ceil_div (fifo_pos w + n) 16 - ceil_div (fifo_pos w) 16) /\
  (forall fuel w bss w',
     wf w -> calls fuel w bss w' ->
     exists delta, bus_trace w' = bus_trace w ++ delta /\
       concat bss ++ pending w' = pending w ++ produced (rng w) delta) /\
  (forall K base good, responsive K base good ->
   forall buf n w, wf w -> 0 <= n -> rng w = base -> good (device w) ->
     exists w' delta,
       hw_get_random_bytes K buf n w = Ret TEE_SUCCESS w' /\
       bus_trace w' = bus_trace w ++ delta /\
       Z.of_nat (block_reads (rng w) delta) =
         ceil_div (fifo_pos w + n) 16 - ceil_div (fifo_pos w) 16).
Proof.
  split; [|split].
  - intros fuel buf n w r w' Hwf Hn E.
    pose proof (hw_get_random_bytes_sat fuel buf n w Hwf) as X.
    rewrite E in X.
    destruct X as (_ & bs & d & _ & _ & T & _ & _ & _ & _ & B & _).
    exists d. split; [exact T|]. rewrite B, Z2Nat.id by exact Hn. reflexivity.
  - intros fuel w bss w' Hwf Hc.
    destruct (calls_conserve fuel w bss w' Hc Hwf) as (_ & _ & X). exact X.
  - intros K base good Hresp buf n w Hwf Hn Hrng Hgood.
    destruct (sat_returns _ _
      (hw_get_random_bytes_returns K base good buf n w Hresp Hwf Hrng Hgood))
      as (r & w' & E & -> & _ & bs & d & _ & _ & T & _ & _ & _ & _ & B & _).
    exists w', d. split; [exact E|]. split; [exact T|].
    rewrite B, Z2Nat.id by exact Hn. reflexivity.
Qed.

(** C2, as amended.  [eip76d_rng_init] returns [TEE_SUCCESS] whatever
    the translation of the physical base gives: it stores the result of
    [phys_to_virt] in [rng], the null address included, and issues the
    four writes of the bring-up sequence at the offsets from it. *)
Theorem init_reports_success w :
  exists w', eip76d_rng_init w = Ret TEE_SUCCESS w' /\
    rng w' = phys_to_virt RNG_BASE MEM_AREA_IO_SEC RNG_REG_SIZE /\
    bus_trace w' = bus_trace w ++
      [IoWrite (vaddr_add (rng w') RNG_CONFIG) 0x00220005;
       IoWrite (vaddr_add (rng w') RNG_FRODETUNE) 0;
       IoWrite (vaddr_add (rng w') RNG_FROENABLE) 0x00FFFFFF;
       IoWrite (vaddr_add (rng w') RNG_CONTROL) 0x400].
Proof.
  destruct (init_run w) as (w' & E & R & B).
  exists w'. split; [exact E|]. split; [exact R|].
  destruct B as (T & _). exact T.
Qed.

(** C3.  The output registers are at offsets 0x00, 0x04, 0x08, 0x0C and
    READY is bit 0.  A block read that returns has added to the bus
    trace: a stretch [pre] without any read of an output register, the
    read of STATUS that showed READY, the reads of OUTPUT_0, OUTPUT_1,
    OUTPUT_2, OUTPUT_3 in this order, whose values are the four words
    returned, and one write of READY to INTACK, and nothing after.  The
    block read returns as soon as the polling loop leaves. *)
Theorem read128_drains_then_acknowledges fuel w :
  (RNG_OUTPUT_0, RNG_OUTPUT_1, RNG_OUTPUT_2, RNG_OUTPUT_3) = (0x00, 0x04, 0x08, 0x0C) /\
  Z.testbit RNG_READY 0 = true /\
  (forall ws w', eip76d_rng_read128 fuel w = Ret ws w' ->
     exists pre s a b c d,
       ws = (a, b, c, d) /\ quiet (rng w) pre /\ Z.land s RNG_READY <> 0 /\
       bus_trace w' = bus_trace w ++ pre ++
         [IoRead (vaddr_add (rng w) RNG_STATUS) s;
          IoRead (vaddr_add (rng w) RNG_OUTPUT_0) a;
          IoRead (vaddr_add (rng w) RNG_OUTPUT_1) b;
          IoRead (vaddr_add (rng w) RNG_OUTPUT_2) c;
          IoRead (vaddr_add (rng w) RNG_OUTPUT_3) d;
          IoWrite (vaddr_add (rng w) RNG_INTACK) RNG_READY]) /\
  (forall w1, bind ensure_enabled (fun _ => poll_ready fuel) w = Ret tt w1 ->
     exists ws w', eip76d_rng_read128 fuel w = Ret ws w').
Proof.
  split; [reflexivity|]. split; [reflexivity|]. split.
  - intros ws w' E. pose proof (read128_sat fuel w) as X. rewrite E in X.
    destruct X as (pre & s & a & b & c & d & -> & _ & R & Q & B).
    exists pre, s, a, b, c, d. destruct B as (T & _). auto.
  - intros w1 E. unfold eip76d_rng_read128.
    apply bind_ret_inv in E. destruct E as (u & w0 & E0 & E1).
    rewrite (bind_run _ _ _ _ _ E0), (bind_run _ _ _ _ _ E1).
    destruct (sat_returns _ _ (drain_and_ack_sat False _ _ _ (bus_only_refl w1)))
      as (ws & w' & E & _).
    eauto.
Qed.

(** C6.  The cursor is 0 at boot, where the invariant [wf] holds.  A
    call that returns from a cursor in [0, 16) leaves it in [0, 16), for
    every length.  From cursor 15 a call for one byte needs no device:
    it returns, hands out byte 15 of the FIFO and leaves the cursor
    at 0.  When the device answers, every call returns and the invariant
    holds again. *)
Theorem cursor_stays_in_range :
  (forall d m, fifo_pos (boot d m) = 0 /\ wf (boot d m)) /\
  (forall fuel buf len w r w',
     0 <= fifo_pos w < 16 -> hw_get_random_bytes fuel buf len w = Ret r w' ->
     0 <= fifo_pos w' < 16) /\
  (forall fuel buf w, wf w -> fifo_pos w = 15 ->
     exists w', hw_get_random_bytes fuel buf 1 w = Ret TEE_SUCCESS w' /\
       ram w' !! buf = fifo w !! 15%nat /\ fifo_pos w' = 0) /\
  (forall K base good, responsive K base good ->
   forall buf len w, wf w -> rng w = base -> good (device w) ->
     exists w', hw_get_random_bytes K buf len w = Ret TEE_SUCCESS w' /\
       wf w' /\ 0 <= fifo_pos w' < 16).
Proof.
  split; [|split; [|split]].
  - intros d m. split; [reflexivity|]. unfold wf. cbn. repeat split; lia.
  - intros fuel buf len w r w' Hp H. unfold hw_get_random_bytes in H.
    apply bind_ret_inv in H. destruct H as ([] & w1 & H1 & H).
    unfold ret in H. assert (w1 = w') as -> by congruence.
    exact (fetch_loop_cursor _ _ _ _ _ _ Hp H1).
  - intros fuel buf w Hwf Hp.
    assert (T : sat False (hw_get_random_bytes fuel buf 1 w) (fun _ _ => True)).
    { unfold hw_get_random_bytes. apply sat_bind.
      assert (Hc : Z.to_nat 1 = 0%nat \/
                   0 < fifo_pos w /\ fifo_pos w + Z.of_nat (Z.to_nat 1) <= 16)
        by (right; rewrite Hp; cbn; lia).
      sat_use (fetch_loop_at_hand fuel buf (Z.to_nat 1) 0 w Hwf Hc).
      intros _ w1 _. exact I. }
    pose proof (sat_both _ _ _ _ T (hw_get_random_bytes_sat fuel buf 1 w Hwf)) as X.
    destruct (sat_returns _ _ X)
      as (r & w' & E & _ & -> & bs & d & _ & _ & _ & Lb & M & Hq & C & B & N & _).
    exists w'. split; [exact E|].
    rewrite Hq, Hp. split; [|reflexivity].
    destruct bs as [|b [|? ?]]; try discriminate Lb.
    rewrite M. cbn [store_bytes]. rewrite Z.add_0_r, lookup_insert_eq.
    rewrite Hp in B. change (Z.of_nat (block_reads (rng w) d) = 0) in B.
    assert (Hd : produced (rng w) d = []).
    { apply length_zero_iff_nil. rewrite N. lia. }
    unfold pending in C. rewrite Hq, Hp, Hd in C.
    change ((15 + Z.of_nat (Z.to_nat 1)) mod 16 =? 0) with true in C.
    change (15 =? 0) with false in C. change (Z.to_nat 15) with 15%nat in C.
    cbv iota in C. rewrite app_nil_r in C.
    destruct Hwf as (_ & Len & _).
    destruct (lookup_lt_is_Some_2 (fifo w) 15) as [x Hx]; [lia|].
    rewrite (drop_S _ _ _ Hx) in C. cbn [app] in C. rewrite Hx. congruence.
  - intros K base good Hresp buf len w Hwf Hrng Hgood.
    destruct (sat_returns _ _
      (hw_get_random_bytes_returns K base good buf len w Hresp Hwf Hrng Hgood))
      as (r & w' & E & -> & _ & bs & d & Hwf' & _).
    exists w'. split; [exact E|]. split; [exact Hwf'|].
    destruct Hwf' as (_ & _ & Hp). exact Hp.
Qed.

(** C7.  When the block read of the first turn yields the words
    [a, b, c, d], a fetch of sixteen bytes from cursor 0 returns; the
    FIFO then holds the four words byte by byte, least significant byte
    first: byte [4k + j] has, as its bits 7..0, the bits [8j + 7 .. 8j]
    of word [k]; and the buffer of the caller holds the sixteen bytes of
    the FIFO in order.  For the words 0x03020100, 0x07060504,
    0x0B0A0908, 0x0F0E0D0C these are the bytes 0x00, 0x01, ..., 0x0F. *)
Theorem fifo_is_little_endian fuel buf w a b c d w1 :
  wf w -> fifo_pos w = 0 ->
  eip76d_rng_read128 fuel (set_fifo_lock true w) = Ret (a, b, c, d) w1 ->
  exists w',
    hw_get_random_bytes fuel buf 16 w = Ret TEE_SUCCESS w' /\
    fifo w' = block_bytes (a, b, c, d) /\
    (forall (k j : nat) word,
       [a; b; c; d] !! k = Some word -> (j < 4)%nat ->
       exists byte, fifo w' !! (4 * k + j)%nat = Some byte /\
         0 <= byte < 256 /\
         forall i, 0 <= i < 8 ->
           Z.testbit byte i = Z.testbit word (8 * Z.of_nat j + i)) /\
    ram w' = store_bytes buf (fifo w') (ram w) /\
    (forall i : nat, (i < 16)%nat -> ram w' !! (buf + Z.of_nat i) = fifo w' !! i) /\
    ((a, b, c, d) = (0x03020100, 0x07060504, 0x0B0A0908, 0x0F0E0D0C) ->
     fifo w' = [0x00; 0x01; 0x02; 0x03; 0x04; 0x05; 0x06; 0x07;
                0x08; 0x09; 0x0A; 0x0B; 0x0C; 0x0D; 0x0E; 0x0F]).
Proof.
  intros Hwf Hp E.
  (* the first turn refills *)
  assert (Hr : fifo_pos w = 0 ->
            sat False (eip76d_rng_read128 fuel (set_fifo_lock true w))
              (fun _ _ => True)) by (intros _; rewrite E; exact I).
  destruct (sat_returns _ _ (fetch_byte_sat False fuel buf 0 w Hwf Hr))
    as ([] & wA & EA & b0 & d1 & HwfA & RA & TA & MA & PA & CA & BA & Hdev).
  destruct Hdev as [(N & _) | (_ & ws & wr & E' & _ & FA & PrA)]; [lia|].
  rewrite E in E'. injection E' as <- <-.
  rewrite Hp in PA. change ((0 + 1) mod 16) with 1 in PA.
  (* the other fifteen take what is at hand *)
  assert (Hc : 15%nat = 0%nat \/ 0 < fifo_pos wA /\ fifo_pos wA + Z.of_nat 15 <= 16)
    by (right; rewrite PA; cbn; lia).
  pose proof (sat_both _ _ _ _
    (fetch_loop_at_hand fuel buf 15 (0 + 1) wA HwfA Hc)
    (fetch_loop_sat True fuel (rng wA) (fun _ => True)
       (fun w0 _ _ => read128_any fuel w0) buf 15 (0 + 1) wA HwfA eq_refl I)) as X.
  destruct (sat_returns _ _ X)
    as ([] & w' & EB & _ & _ & bs & d2 & HwfB & RB & TB & LB & MB & PB & CB & BB & NB & FB).
  rewrite PA in PB, BB. change ((1 + Z.of_nat 15) mod 16) with 0 in PB.
  change (Z.of_nat (block_reads (rng wA) d2) = 0) in BB.
  assert (Hd2 : produced (rng wA) d2 = [])
    by (apply length_zero_iff_nil; rewrite NB; lia).
  assert (Hf : fifo w' = block_bytes (a, b, c, d))
    by (rewrite FB by lia; exact FA).
  unfold pending in CA, CB. rewrite Hp, PA, PrA in CA. rewrite PA, PB, Hd2 in CB.
  cbn [Z.eqb] in CA, CB. change (Z.to_nat 1) with 1%nat in CA, CB.
  rewrite !app_nil_r in CB. cbn [app] in CA. rewrite FA in CA, CB.
  assert (Hram : ram w' = store_bytes buf (fifo w') (ram w)).
  { rewrite MB, MA, Hf, CB, <- CA. cbn [store_bytes].
    rewrite !Z.add_0_r. reflexivity. }
  exists w'. split.
  { assert (EL : fetch_loop fuel buf 16 0 w = Ret tt w').
    { cbn [fetch_loop]. rewrite (bind_run _ _ _ _ _ EA). exact EB. }
    unfold hw_get_random_bytes. change (Z.to_nat 16) with 16%nat.
    rewrite (bind_run _ _ _ _ _ EL). reflexivity. }
  split; [exact Hf|]. split.
  { intros k j word Hk Hj. rewrite Hf, (block_bytes_lookup _ _ _ _ _ _ _ Hk Hj).
    apply le_bytes_bits. exact Hj. }
  split; [exact Hram|]. split.
  { intros i Hi. rewrite Hram. apply store_bytes_inside.
    rewrite Hf, length_block_bytes. exact Hi. }
  intros Hw. rewrite Hf, Hw. reflexivity.
Qed.

(** C8.  A call with length 0 returns [TEE_SUCCESS] and leaves the whole
    state as it was: no event on the bus, the same FIFO and cursor.  A
    call that returns, returns [TEE_SUCCESS]; from a state that satisfies
    the invariant no call faults; and when the device answers, every
    call returns. *)
Theorem fetch_returns_success :
  (forall fuel buf w, hw_get_random_bytes fuel buf 0 w = Ret TEE_SUCCESS w) /\
  (forall fuel buf len w r w',
     hw_get_random_bytes fuel buf len w = Ret r w' -> r = TEE_SUCCESS) /\
  (forall fuel buf len w, wf w -> hw_get_random_bytes fuel buf len w <> Fault) /\
  (forall K base good, responsive K base good ->
   forall buf len w, wf w -> rng w = base -> good (device w) ->
     exists w', hw_get_random_bytes K buf len w = Ret TEE_SUCCESS w').
Proof.
  split; [reflexivity|]. split; [|split].
  - intros fuel buf len w r w' H. unfold hw_get_random_bytes in H.
    apply bind_ret_inv in H. destruct H as (u & w1 & _ & H).
    unfold ret in H. congruence.
  - intros fuel buf len w Hwf E.
    pose proof (hw_get_random_bytes_sat fuel buf len w Hwf) as X.
    rewrite E in X. exact X.
  - intros K base good Hresp buf len w Hwf Hrng Hgood.
    destruct (sat_returns _ _
      (hw_get_random_bytes_returns K base good buf len w Hresp Hwf Hrng Hgood))
      as (r & w' & E & -> & _).
    exists w'. exact E.
Qed.

(** C9.  A call for [len] bytes that returns leaves the cursor at
    [(cursor + len) mod 16]; when the device answers, the call returns,
    with the cursor there. *)
Theorem fetch_advances_cursor :
  (forall fuel buf len w r w',
     wf w -> 0 <= len -> hw_get_random_bytes fuel buf len w = Ret r w' ->
     fifo_pos w' = (fifo_pos w + len) mod 16) /\
  (forall K base good, responsive K base good ->
   forall buf len w, wf w -> 0 <= len -> rng w = base -> good (device w) ->
     exists w', hw_get_random_bytes K buf len w = Ret TEE_SUCCESS w' /\
       fifo_pos w' = (fifo_pos w + len) mod 16).
Proof.
  split.
  - intros fuel buf len w r w' Hwf Hlen E.
    pose proof (hw_get_random_bytes_sat fuel buf len w Hwf) as X.
    rewrite E in X. destruct X as (_ & bs & d & _ & _ & _ & _ & _ & Hp & _).
    rewrite Hp, Z2Nat.id by exact Hlen. reflexivity.
  - intros K base good Hresp buf len w Hwf Hlen Hrng Hgood.
    destruct (sat_returns _ _
      (hw_get_random_bytes_returns K base good buf len w Hresp Hwf Hrng Hgood))
      as (r & w' & E & -> & _ & bs & d & _ & _ & _ & _ & _ & Hp & _).
    exists w'. split; [exact E|].
    rewrite Hp, Z2Nat.id by exact Hlen. reflexivity.
Qed.

(** C10.  A call for [len] bytes at [buf] that returns has left every
    byte of the callers' memory outside [buf, buf + len) as it was, the
    bytes of the buffer from index [len] on among them; the device
    handle is the same and the mutex is free again.  When the device
    answers, the call returns, with the same frame. *)
Theorem fetch_writes_only_its_buffer :
  (forall fuel buf len w r w',
     wf w -> hw_get_random_bytes fuel buf len w = Ret r w' ->
     (forall a, ~ (buf <= a < buf + len) -> ram w' !! a = ram w !! a) /\
     (forall i, len <= i -> ram w' !! (buf + i) = ram w !! (buf + i)) /\
     rng w' = rng w /\ fifo_lock w' = fifo_lock w) /\
  (forall K base good, responsive K base good ->
   forall buf len w, wf w -> rng w = base -> good (device w) ->
     exists w', hw_get_random_bytes K buf len w = Ret TEE_SUCCESS w' /\
       (forall a, ~ (buf <= a < buf + len) -> ram w' !! a = ram w !! a)).
Proof.
  assert (Frame : forall buf len w w',
    fetched buf 0 (Z.to_nat len) w w' ->
    forall a, ~ (buf <= a < buf + len) -> ram w' !! a = ram w !! a).
  { intros buf len w w' (bs & d & _ & _ & _ & Lb & M & _) a Ha.
    rewrite M, Z.add_0_r. apply store_bytes_outside. rewrite Lb. lia. }
  split.
  - intros fuel buf len w r w' Hwf E.
    pose proof (hw_get_random_bytes_sat fuel buf len w Hwf) as X.
    rewrite E in X. destruct X as (_ & X).
    split; [exact (Frame _ _ _ _ X)|].
    split; [intros i Hi; apply (Frame _ _ _ _ X); lia|].
    destruct X as (bs & d & (L' & _) & R & _).
    split; [exact R|]. destruct Hwf as (L & _). congruence.
  - intros K base good Hresp buf len w Hwf Hrng Hgood.
    destruct (sat_returns _ _
      (hw_get_random_bytes_returns K base good buf len w Hresp Hwf Hrng Hgood))
      as (r & w' & E & -> & _ & X).
    exists w'. split; [exact E|]. exact (Frame _ _ _ _ X).
Qed.

End Claims.

(** C5.  On every platform [eip76d_rng_init] returns after the four
    writes CONFIG = 0x00220005, FRODETUNE = 0, FROENABLE = 0x00FFFFFF,
    CONTROL = 0x400.  On the register model, from every state of the
    device, CONTROL then has bit 10 set and its startup-cycle field
    (bits 31:16) zero, CONFIG has 0x05 in bits 7:0 and 0x22 in bits
    31:16, FRODETUNE holds 0 and FROENABLE holds 0x00FFFFFF; and running
    the initialisation, or the bring-up sequence alone, once more leaves
    the device in the same state. *)
Theorem bring_up_programs_device :
  (forall (P : Platform) (w : world),
     exists w', eip76d_rng_init w = Ret TEE_SUCCESS w' /\
       bus_trace w' = bus_trace w ++
         [IoWrite (vaddr_add (rng w') RNG_CONFIG) 0x00220005;
          IoWrite (vaddr_add (rng w') RNG_FRODETUNE) 0;
          IoWrite (vaddr_add (rng w') RNG_FROENABLE) 0x00FFFFFF;
          IoWrite (vaddr_add (rng w') RNG_CONTROL) 0x400]) /\
  (forall w : @world Scenario.mapped,
     exists w1 control config,
       eip76d_rng_init w = Ret TEE_SUCCESS w1 /\
       Mock.regs (device w1) !! RNG_CONTROL = Some control /\
       Z.testbit control 10 = true /\
       Z.land control RNG_CONTROL_STARTUP_CYCLES_MASK = 0 /\
       Mock.regs (device w1) !! RNG_CONFIG = Some config /\
       Z.land config RNG_CONFIG_MIN_REFIL_CYCLES_MASK = 0x05 /\
       Z.shiftr (Z.land config RNG_CONFIG_MAX_REFIL_CYCLES_MASK) 16 = 0x22 /\
       Mock.regs (device w1) !! RNG_FRODETUNE = Some 0 /\
       Mock.regs (device w1) !! RNG_FROENABLE = Some 0x00FFFFFF /\
       (exists w2, eip76d_rng_init w1 = Ret TEE_SUCCESS w2 /\
                   device w2 = device w1) /\
       (exists w2, eip76d_rng_init_seq w1 = Ret tt w2 /\
                   device w2 = device w1)).
Proof.
  split.
  - intros P w. destruct (init_run w) as (w' & E & _ & T & _). eauto.
  - intros w.
    destruct (@init_run Scenario.mapped w) as (w1 & E1 & R1 & B1).
    destruct (@init_run Scenario.mapped w1) as (w2 & E2 & R2 & B2).
    assert (D1 : device w1 = @replay Scenario.mapped (device w) (bring_up Mock.window)).
    { destruct B1 as (_ & _ & _ & _ & _ & _ & D & _). rewrite R1 in D. exact D. }
    assert (D2 : device w2 = device w1).
    { destruct B2 as (_ & _ & _ & _ & _ & _ & D & _). rewrite R2 in D.
      change (device w2 = @replay Scenario.mapped (device w1) (bring_up Mock.window))
        in D.
      rewrite D, D1. apply MockFacts.bring_up_twice. }
    destruct (sat_returns _ _
      (@init_seq_sat Scenario.mapped False _ _ _ (bus_only_refl w1)))
      as ([] & w3 & E3 & B3).
    assert (D3 : device w3 = device w1).
    { destruct B3 as (_ & _ & _ & _ & _ & _ & D & _). rewrite R1 in D.
      change (device w3 = @replay Scenario.mapped (device w1) (bring_up Mock.window))
        in D.
      rewrite D, D1. apply MockFacts.bring_up_twice. }
    exists w1, 0x400, 0x00220005. split; [exact E1|].
    rewrite D1, MockFacts.bring_up_regs. cbn [Mock.regs].
    split; [apply lookup_insert_eq|]. split; [reflexivity|]. split; [reflexivity|].
    split; [rewrite !lookup_insert_ne by discriminate; apply lookup_insert_eq|].
    split; [reflexivity|]. split; [reflexivity|].
    split; [rewrite !lookup_insert_ne by discriminate; apply lookup_insert_eq|].
    split; [rewrite !lookup_insert_ne by discriminate; apply lookup_insert_eq|].
    rewrite <- MockFacts.bring_up_regs, <- D1.
    split; [exists w2; auto | exists w3; auto].
Qed.

(** * The claims on the register model *)

(** C1: two fetches of ten bytes after initialisation.  The second
    starts at cursor 10 and does one block read, where
    [ceil ((10 + 10) / 16)] is 2. *)
Lemma fifo_conservation_counterexample :
  wf Scenario.after_ten /\ fifo_pos Scenario.after_ten = 10 /\
  exists w' delta,
    hw_get_random_bytes 2 0x2000 10 Scenario.after_ten = Ret TEE_SUCCESS w' /\
    bus_trace w' = bus_trace Scenario.after_ten ++ delta /\
    block_reads (rng Scenario.after_ten) delta = 1%nat /\
    ceil_div (fifo_pos Scenario.after_ten + 10) 16 = 2.
Proof.
  split; [exact MockFacts.wf_after_ten|]. split; [vm_compute; reflexivity|].
  exists (world_of (hw_get_random_bytes 2 0x2000 10 Scenario.after_ten)
                   Scenario.after_ten).
  exists (drop (length (bus_trace Scenario.after_ten))
            (bus_trace
               (world_of (hw_get_random_bytes 2 0x2000 10 Scenario.after_ten)
                         Scenario.after_ten))).
  split; [apply returned_world_of; vm_compute; reflexivity|].
  split; [vm_compute; reflexivity|].
  split; vm_compute; reflexivity.
Qed.

(** C1 on the register model: the second of two fetches of ten bytes
    does one block read, and the twenty bytes handed out are the first
    twenty bytes read from the device. *)
Lemma fifo_conservation_witness :
  (exists w' delta,
     hw_get_random_bytes 2 0x2000 10 Scenario.after_ten = Ret TEE_SUCCESS w' /\
     bus_trace w' = bus_trace Scenario.after_ten ++ delta /\
     Z.of_nat (block_reads (rng Scenario.after_ten) delta) =
       ceil_div (fifo_pos Scenario.after_ten + 10) 16 -
       ceil_div (fifo_pos Scenario.after_ten) 16) /\
  (exists (w' : @world Scenario.mapped) delta,
     bus_trace w' = bus_trace Scenario.ready ++ delta /\
     concat [[0; 1; 2; 3; 4; 5; 6; 7; 8; 9];
             [10; 11; 12; 13; 14; 15; 0xEF; 0xBE; 0xAD; 0xDE]] ++ pending w' =
     pending Scenario.ready ++ produced (rng Scenario.ready) delta).
Proof.
  destruct (@fifo_conservation Scenario.mapped) as (_ & Seq & Total).
  split.
  - apply (Total 2%nat Mock.window (fun _ => True)
             (MockFacts.read128_responsive Mock.window) 0x2000 10
             Scenario.after_ten MockFacts.wf_after_ten);
      [lia | vm_compute; reflexivity | exact I].
  - exists (world_of (hw_get_random_bytes 2 0x2000 10 Scenario.after_ten)
                     Scenario.after_ten).
    apply (Seq 2%nat Scenario.ready); [exact MockFacts.wf_ready|].
    apply (calls_cons 2 Scenario.ready 0x1000 10 Scenario.after_ten);
      [ lia
      | apply (returned_world_of _ _ Scenario.ready); vm_compute; reflexivity
      | reflexivity
      | vm_compute; reflexivity |].
    eapply (calls_cons 2 Scenario.after_ten 0x2000 10);
      [ lia
      | apply (returned_world_of _ _ Scenario.after_ten); vm_compute; reflexivity
      | reflexivity
      | vm_compute; reflexivity |].
    apply calls_nil.
Defined.

(** C2: the translation fails and the initialisation reports success. *)
Lemma init_mapping_failure_counterexample :
  @phys_to_virt Scenario.unmapped (@RNG_BASE Scenario.unmapped)
    MEM_AREA_IO_SEC (@RNG_REG_SIZE Scenario.unmapped) = 0 /\
  exists w',
    @eip76d_rng_init Scenario.unmapped Scenario.cold_unmapped
      = Ret TEE_SUCCESS w' /\ rng w' = 0.
Proof.
  split; [reflexivity|].
  exists (world_of (@eip76d_rng_init Scenario.unmapped Scenario.cold_unmapped)
                   Scenario.cold_unmapped).
  split; [apply returned_world_of|]; vm_compute; reflexivity.
Qed.

(** C3 on the register model, after initialisation. *)
Lemma read128_drains_then_acknowledges_witness :
  exists pre s a b c d w',
    eip76d_rng_read128 2 Scenario.ready = Ret (a, b, c, d) w' /\
    bus_trace w' = bus_trace Scenario.ready ++ pre ++
      [IoRead (vaddr_add Mock.window RNG_STATUS) s;
       IoRead (vaddr_add Mock.window RNG_OUTPUT_0) a;
       IoRead (vaddr_add Mock.window RNG_OUTPUT_1) b;
       IoRead (vaddr_add Mock.window RNG_OUTPUT_2) c;
       IoRead (vaddr_add Mock.window RNG_OUTPUT_3) d;
       IoWrite (vaddr_add Mock.window RNG_INTACK) RNG_READY].
Proof.
  destruct (read128_drains_then_acknowledges 2 Scenario.ready)
    as (_ & _ & Shape & Returns).
  destruct (Returns
    (world_of (bind ensure_enabled (fun _ => poll_ready 2) Scenario.ready)
              Scenario.ready))
    as (ws & w' & E);
    [apply returned_world_of; vm_compute; reflexivity|].
  destruct (Shape ws w' E) as (pre & s & a & b & c & d & -> & _ & _ & T).
  exists pre, s, a, b, c, d, w'. split; [exact E|].
  replace Mock.window with (rng Scenario.ready) by (vm_compute; reflexivity).
  exact T.
Defined.

(** C6 on the register model: from cursor 15 one byte is handed out
    without the device and the cursor wraps to 0; a fetch of forty bytes
    leaves the cursor in range. *)
Lemma cursor_stays_in_range_witness :
  (exists w',
     hw_get_random_bytes 0 0x2000 1 Scenario.after_fifteen
       = Ret TEE_SUCCESS w' /\
     ram w' !! 0x2000 = Some 0x0F /\ fifo_pos w' = 0) /\
  (exists w',
     hw_get_random_bytes 2 0x2000 40 Scenario.after_fifteen
       = Ret TEE_SUCCESS w' /\ 0 <= fifo_pos w' < 16).
Proof.
  destruct (@cursor_stays_in_range Scenario.mapped)
    as (_ & Keeps & Wraps & Total).
  split.
  - destruct (Wraps 0%nat 0x2000 Scenario.after_fifteen
                MockFacts.wf_after_fifteen) as (w' & E & Hb & Hp);
      [vm_compute; reflexivity|].
    exists w'. split; [exact E|]. split; [|exact Hp].
    rewrite Hb. vm_compute. reflexivity.
  - destruct (Total 2%nat Mock.window (fun _ => True)
                (MockFacts.read128_responsive Mock.window) 0x2000 40
                Scenario.after_fifteen MockFacts.wf_after_fifteen)
      as (w' & E & _ & _); [vm_compute; reflexivity | exact I |].
    exists w'. split; [exact E|].
    apply (Keeps 2%nat 0x2000 40 Scenario.after_fifteen TEE_SUCCESS w');
      [vm_compute; split; congruence | exact E].
Defined.

(** C7 on the register model: the device yields 0x03020100, 0x07060504,
    0x0B0A0908, 0x0F0E0D0C and the fetch of sixteen bytes stores
    0x00 .. 0x0F. *)
Lemma fifo_is_little_endian_witness :
  exists w',
    hw_get_random_bytes 2 0x1000 16 Scenario.ready = Ret TEE_SUCCESS w' /\
    fifo w' = [0x00; 0x01; 0x02; 0x03; 0x04; 0x05; 0x06; 0x07;
               0x08; 0x09; 0x0A; 0x0B; 0x0C; 0x0D; 0x0E; 0x0F] /\
    ram w' = store_bytes 0x1000 (fifo w') (ram Scenario.ready).
Proof.
  destruct (fifo_is_little_endian 2 0x1000 Scenario.ready
              0x03020100 0x07060504 0x0B0A0908 0x0F0E0D0C
              (world_of (eip76d_rng_read128 2 (set_fifo_lock true Scenario.ready))
                        Scenario.ready)
              MockFacts.wf_ready)
    as (w' & E & _ & _ & Hram & _ & Hbytes).
  - vm_compute. reflexivity.
  - apply returned_world_of. vm_compute. reflexivity.
  - exists w'. split; [exact E|]. split; [exact (Hbytes eq_refl) | exact Hram].
Defined.

(** C8 on the register model: a fetch of four bytes. *)
Lemma fetch_returns_success_witness :
  exists w',
    hw_get_random_bytes 2 0x1000 4 Scenario.ready = Ret TEE_SUCCESS w' /\
    hw_get_random_bytes 0 0x1000 4 Scenario.ready <> Fault.
Proof.
  destruct (@fetch_returns_success Scenario.mapped)
    as (_ & _ & NoFault & Total).
  destruct (Total 2%nat Mock.window (fun _ => True)
              (MockFacts.read128_responsive Mock.window) 0x1000 4
              Scenario.ready MockFacts.wf_ready)
    as (w' & E); [vm_compute; reflexivity | exact I |].
  exists w'. split.
  - exact E.
  - apply NoFault. exact MockFacts.wf_ready.
Defined.

(** C9 on the register model: twenty bytes from cursor 10 leave the
    cursor at 14. *)
Lemma fetch_advances_cursor_witness :
  exists w',
    hw_get_random_bytes 2 0x1000 20 Scenario.after_ten = Ret TEE_SUCCESS w' /\
    fifo_pos w' = 14.
Proof.
  destruct (@fetch_advances_cursor Scenario.mapped) as (Part & Total).
  destruct (Total 2%nat Mock.window (fun _ => True)
              (MockFacts.read128_responsive Mock.window) 0x1000 20
              Scenario.after_ten MockFacts.wf_after_ten)
    as (w' & E & _); [lia | vm_compute; reflexivity | exact I |].
  exists w'. split; [exact E|].
  rewrite (Part 2%nat 0x1000 20 Scenario.after_ten TEE_SUCCESS w'
             MockFacts.wf_after_ten ltac:(lia) E).
  vm_compute. reflexivity.
Defined.

(** C10 on the register model: a fetch of four bytes at 0x1004 leaves
    the bytes at 0x1003 and 0x1008 as they were. *)
Lemma fetch_writes_only_its_buffer_witness :
  exists w',
    hw_get_random_bytes 2 0x1004 4 Scenario.after_ten = Ret TEE_SUCCESS w' /\
    ram w' !! 0x1003 = Some 3 /\ ram w' !! 0x1008 = Some 8.
Proof.
  destruct (@fetch_writes_only_its_buffer Scenario.mapped) as (Part & Total).
  destruct (Total 2%nat Mock.window (fun _ => True)
              (MockFacts.read128_responsive Mock.window) 0x1004 4
              Scenario.after_ten MockFacts.wf_after_ten)
    as (w' & E & _); [vm_compute; reflexivity | exact I |].
  destruct (Part 2%nat 0x1004 4 Scenario.after_ten TEE_SUCCESS w'
              MockFacts.wf_after_ten E) as (Out & _).
  exists w'. split; [exact E|]. split.
  - rewrite (Out 0x1003) by lia. vm_compute. reflexivity.
  - rewrite (Out 0x1008) by lia. vm_compute. reflexivity.
Defined.

(** * Further properties of the driver *)

Section Protocol.

Context {P : Platform}.

Lemma poll_ready_trace fuel : forall w0 w evs,
  bus_only w0 w evs ->
  sat True (poll_ready fuel w) (fun _ w' => exists polls,
    bus_only w0 w' (evs ++ polls) /\ poll_trace (rng w0) polls).
Proof.
  induction fuel as [|fuel IH]; intros w0 w evs B; cbn [poll_ready].
  - exact I.
  - bus_step B. bus_step B. rename v into s.
    destruct (Z.land s RNG_READY =? 0) eqn:T; cbn [negb].
    + apply Z.eqb_eq in T.
      bus_step B. bus_step B. rename v into s2.
      apply sat_bind.
      destruct (Z.land s2 SHUTDOWN_OFLO =? 0) eqn:T2; cbn [negb].
      * apply Z.eqb_eq in T2. apply sat_ret. sat_use (IH _ _ _ B).
        intros _ w' (polls & B' & Hp).
        exists (IoRead (vaddr_add (rng w0) RNG_STATUS) s ::
                IoRead (vaddr_add (rng w0) RNG_STATUS) s2 :: polls).
        repeat rewrite <- app_assoc in B'. split; [exact B'|].
        apply poll_turn_idle; assumption.
      * apply Z.eqb_neq in T2.
        sat_use (fro_recover_sat True _ _ _ B).
        intros _ w3 (alarm & tune & _ & _ & B3).
        sat_use (IH _ _ _ B3).
        intros _ w' (polls & B' & Hp).
        exists (IoRead (vaddr_add (rng w0) RNG_STATUS) s ::
                IoRead (vaddr_add (rng w0) RNG_STATUS) s2 ::
                recovery (rng w0) alarm tune ++ polls).
        repeat rewrite <- app_assoc in B'. split; [exact B'|].
        apply poll_turn_recover; assumption.
    + apply Z.eqb_neq in T. apply sat_ret.
      exists [IoRead (vaddr_add (rng w0) RNG_STATUS) s].
      split; [exact B|]. apply poll_ready_seen. exact T.
Qed.

Lemma read128_trace fuel w :
  sat True (eip76d_rng_read128 fuel w) (fun ws w' => exists blk,
    bus_only w w' blk /\ block_trace (rng w) blk /\
    exists pre, blk = pre ++
      [IoRead (vaddr_add (rng w) RNG_OUTPUT_0) ws.1.1.1;
       IoRead (vaddr_add (rng w) RNG_OUTPUT_1) ws.1.1.2;
       IoRead (vaddr_add (rng w) RNG_OUTPUT_2) ws.1.2;
       IoRead (vaddr_add (rng w) RNG_OUTPUT_3) ws.2;
       IoWrite (vaddr_add (rng w) RNG_INTACK) RNG_READY]).
Proof.
  unfold eip76d_rng_read128. apply sat_bind.
  unfold ensure_enabled, eip76d_rng_is_enabled.
  pose proof (bus_only_refl w) as B.
  apply sat_bind.
  bus_step B. bus_step B. rename v into control.
  apply sat_ret.
  assert (Hen : sat True
    ((if negb (negb (Z.land control ENABLE_TRNG =? 0))
      then eip76d_rng_init_seq else ret tt) w1)
    (fun _ w2 => bus_only w w2
       (IoRead (vaddr_add (rng w) RNG_CONTROL) control ::
        (if Z.land control ENABLE_TRNG =? 0 then bring_up (rng w) else [])))).
  { destruct (Z.land control ENABLE_TRNG =? 0); cbn [negb].
    - sat_use (init_seq_sat True _ _ _ B). intros _ w2 B2. exact B2.
    - apply sat_ret. exact B. }
  sat_use Hen. intros _ w2 B2. apply sat_bind.
  sat_use (poll_ready_trace fuel _ _ _ B2).
  intros _ w3 (polls & B3 & Hp).
  sat_use (drain_and_ack_sat True _ _ _ B3).
  intros ws w' (a & b & c & d & -> & _ & B').
  eexists. split; [|split].
  - repeat rewrite <- app_assoc in B'. cbn [app] in B'. exact B'.
  - apply (block_trace_intro (rng w) control polls a b c d Hp).
  - eexists (_ :: _ ++ polls). cbn [fst snd app]. rewrite <- app_assoc.
    reflexivity.
Qed.


Lemma ready_acks_app base e1 e2 :
  ready_acks base (e1 ++ e2) = (ready_acks base e1 + ready_acks base e2)%nat.
Proof. unfold ready_acks. rewrite List.filter_app, length_app. reflexivity. Qed.

Lemma output_reads_app base e1 e2 :
  output_reads base (e1 ++ e2) =
  (output_reads base e1 + output_reads base e2)%nat.
Proof. unfold output_reads. rewrite List.filter_app, length_app. reflexivity. Qed.

Lemma recovery_counts base alarm tune :
  block_reads base (recovery base alarm tune) = 0%nat /\
  ready_acks base (recovery base alarm tune) = 0%nat /\
  output_reads base (recovery base alarm tune) = 0%nat.
Proof.
  unfold block_reads, ready_acks, output_reads, recovery.
  cbn [List.filter is_block_start is_ready_ack is_output_read].
  rewrite !is_output_reg by off_range. rewrite !vaddr_eqb by off_range.
  repeat split; reflexivity.
Qed.

Lemma bring_up_counts base :
  block_reads base (bring_up base) = 0%nat /\
  ready_acks base (bring_up base) = 0%nat /\
  output_reads base (bring_up base) = 0%nat.
Proof.
  unfold block_reads, ready_acks, output_reads, bring_up.
  cbn [List.filter is_block_start is_ready_ack is_output_read].
  rewrite !vaddr_eqb by off_range.
  repeat split; reflexivity.
Qed.

Lemma status_read_counts base s tr :
  block_reads base (IoRead (vaddr_add base RNG_STATUS) s :: tr) =
    block_reads base tr /\
  ready_acks base (IoRead (vaddr_add base RNG_STATUS) s :: tr) =
    ready_acks base tr /\
  output_reads base (IoRead (vaddr_add base RNG_STATUS) s :: tr) =
    output_reads base tr.
Proof.
  unfold block_reads, ready_acks, output_reads.
  cbn [List.filter is_block_start is_ready_ack is_output_read].
  rewrite !is_output_reg by off_range. rewrite !vaddr_eqb by off_range.
  repeat split; reflexivity.
Qed.

Lemma poll_trace_counts base polls :
  poll_trace base polls ->
  block_reads base polls = 0%nat /\ ready_acks base polls = 0%nat /\
  output_reads base polls = 0%nat.
Proof.
  induction 1 as [s Hs|s s' rest Hs Hs' _ IH|s s' alarm tune rest Hs Hs' _ IH].
  - destruct (status_read_counts base s []) as (-> & -> & ->).
    repeat split; reflexivity.
  - destruct (status_read_counts base s
                (IoRead (vaddr_add base RNG_STATUS) s' :: rest))
      as (-> & -> & ->).
    destruct (status_read_counts base s' rest) as (-> & -> & ->). exact IH.
  - destruct (status_read_counts base s
                (IoRead (vaddr_add base RNG_STATUS) s' ::
                 recovery base alarm tune ++ rest))
      as (-> & -> & ->).
    destruct (status_read_counts base s' (recovery base alarm tune ++ rest))
      as (-> & -> & ->).
    rewrite block_reads_app, ready_acks_app, output_reads_app.
    destruct (recovery_counts base alarm tune) as (-> & -> & ->). exact IH.
Qed.

Lemma block_trace_counts base blk :
  block_trace base blk ->
  block_reads base blk = 1%nat /\ ready_acks base blk = 1%nat /\
  output_reads base blk = 4%nat.
Proof.
  intros [control polls a b c d Hp].
  destruct (poll_trace_counts base polls Hp) as (P1 & P2 & P3).
  assert (Hen : forall l,
    block_reads base
      ((if Z.land control ENABLE_TRNG =? 0 then bring_up base else []) ++ l)
      = block_reads base l /\
    ready_acks base
      ((if Z.land control ENABLE_TRNG =? 0 then bring_up base else []) ++ l)
      = ready_acks base l /\
    output_reads base
      ((if Z.land control ENABLE_TRNG =? 0 then bring_up base else []) ++ l)
      = output_reads base l).
  { intros l. destruct (Z.land control ENABLE_TRNG =? 0).
    - rewrite block_reads_app, ready_acks_app, output_reads_app.
      destruct (bring_up_counts base) as (-> & -> & ->). auto.
    - auto. }
  assert (Hc : forall l,
    block_reads base (IoRead (vaddr_add base RNG_CONTROL) control :: l)
      = block_reads base l /\
    ready_acks base (IoRead (vaddr_add base RNG_CONTROL) control :: l)
      = ready_acks base l /\
    output_reads base (IoRead (vaddr_add base RNG_CONTROL) control :: l)
      = output_reads base l).
  { intros l. unfold block_reads, ready_acks, output_reads.
    cbn [List.filter is_block_start is_ready_ack is_output_read].
    rewrite !is_output_reg by off_range. rewrite !vaddr_eqb by off_range.
    repeat split; reflexivity. }
  destruct (Hc ((if Z.land control ENABLE_TRNG =? 0 then bring_up base else [])
                ++ polls ++
                [IoRead (vaddr_add base RNG_OUTPUT_0) a;
                 IoRead (vaddr_add base RNG_OUTPUT_1) b;
                 IoRead (vaddr_add base RNG_OUTPUT_2) c;
                 IoRead (vaddr_add base RNG_OUTPUT_3) d;
                 IoWrite (vaddr_add base RNG_INTACK) RNG_READY]))
    as (-> & -> & ->).
  destruct (Hen (polls ++
                [IoRead (vaddr_add base RNG_OUTPUT_0) a;
                 IoRead (vaddr_add base RNG_OUTPUT_1) b;
                 IoRead (vaddr_add base RNG_OUTPUT_2) c;
                 IoRead (vaddr_add base RNG_OUTPUT_3) d;
                 IoWrite (vaddr_add base RNG_INTACK) RNG_READY]))
    as (-> & -> & ->).
  rewrite block_reads_app, ready_acks_app, output_reads_app, P1, P2, P3.
  unfold block_reads, ready_acks, output_reads.
  cbn [List.filter is_block_start is_ready_ack is_output_read].
  rewrite !is_output_reg by off_range. rewrite !vaddr_eqb by off_range.
  repeat split; reflexivity.
Qed.

Lemma blocks_counts base blocks :
  Forall (block_trace base) blocks ->
  block_reads base (concat blocks) = length blocks /\
  ready_acks base (concat blocks) = length blocks /\
  output_reads base (concat blocks) = (4 * length blocks)%nat.
Proof.
  induction 1 as [|blk blocks Hb _ IH]; [repeat split; reflexivity|].
  cbn [concat length].
  rewrite block_reads_app, ready_acks_app, output_reads_app.
  destruct (block_trace_counts base blk Hb) as (-> & -> & ->).
  destruct IH as (-> & -> & ->). repeat split; lia.
Qed.

Lemma fetch_byte_bus fuel buf bp w w1 :
  fetch_byte fuel buf bp w = Ret tt w1 ->
  rng w1 = rng w /\
  (fifo_pos w <> 0 /\ bus_trace w1 = bus_trace w /\ device w1 = device w \/
   fifo_pos w = 0 /\ exists blk,
     bus_trace w1 = bus_trace w ++ blk /\ block_trace (rng w) blk).
Proof.
  unfold fetch_byte. intros H.
  apply bind_ret_inv in H. destruct H as (ua & wa & Ha & H).
  apply bind_ret_inv in H. destruct H as (ub & wb & Hb & H).
  apply bind_ret_inv in H. destruct H as (b & wc & Hc & H).
  apply bind_ret_inv in H. destruct H as (ud & wd & Hd & H).
  apply bind_ret_inv in H. destruct H as (ue & we & He & H).
  unfold mutex_lock in Ha. destruct (fifo_lock w); [discriminate Ha|].
  assert (Ea : wa = set_fifo_lock true w) by congruence.
  assert (Ec : wc = wb).
  { unfold load_fifo_byte in Hc.
    destruct ((0 <=? fifo_pos wb) && (fifo_pos wb <? 16)); [|discriminate Hc].
    destruct (fifo wb !! Z.to_nat (fifo_pos wb)); [|discriminate Hc].
    congruence. }
  assert (Ed : wd = set_ram (<[buf + bp := b]> (ram wc)) wc)
    by (unfold store_byte in Hd; congruence).
  assert (Ee : we = set_fifo_pos ((fifo_pos wd + 1) mod 16) wd) by congruence.
  assert (E1 : w1 = set_fifo_lock false we)
    by (unfold mutex_unlock in H; congruence).
  assert (Hsame : rng w1 = rng wb /\ bus_trace w1 = bus_trace wb /\
                  device w1 = device wb).
  { rewrite E1, Ee, Ed, Ec. cbn. auto. }
  destruct Hsame as (R1 & T1 & D1). rewrite R1, T1, D1.
  rewrite Ea in Hb. cbn [fifo_pos set_fifo_lock] in Hb.
  destruct (fifo_pos w =? 0) eqn:Z0.
  - apply Z.eqb_eq in Z0. unfold refill in Hb.
    apply bind_ret_inv in Hb. destruct Hb as (ws & wr & Hr & Hb).
    destruct ws as [[[a0 b0] c0] d0].
    assert (Eb : rng wb = rng wr /\ bus_trace wb = bus_trace wr).
    { unfold bind, store_fifo_val in Hb.
      cbn -[list_inserts le_bytes Nat.mul] in Hb.
      injection Hb as _ Hw. rewrite <- Hw. split; reflexivity. }
    destruct Eb as (-> & ->).
    pose proof (read128_trace fuel (set_fifo_lock true w)) as X.
    rewrite Hr in X. destruct X as (blk & B & Hblk & _).
    destruct B as (T & _ & R & _). cbn in T, R, Hblk.
    split; [exact R|]. right. split; [exact Z0|]. exists blk. auto.
  - apply Z.eqb_neq in Z0. unfold ret in Hb.
    assert (wb = set_fifo_lock true w) as -> by congruence.
    cbn. split; [reflexivity|]. left. auto.
Qed.

Lemma fetch_loop_bus fuel buf : forall todo bp w w',
  fetch_loop fuel buf todo bp w = Ret tt w' ->
  rng w' = rng w /\
  exists blocks,
    bus_trace w' = bus_trace w ++ concat blocks /\
    Forall (block_trace (rng w)) blocks /\
    (blocks = [] -> device w' = device w).
Proof.
  induction todo as [|todo IH]; intros bp w w' H; cbn [fetch_loop] in H.
  - unfold ret in H. assert (w' = w) as -> by congruence.
    split; [reflexivity|]. exists []. rewrite app_nil_r. auto.
  - apply bind_ret_inv in H. destruct H as ([] & w1 & H1 & H).
    destruct (fetch_byte_bus _ _ _ _ _ H1) as (R1 & Hstep).
    destruct (IH _ _ _ H) as (R' & blocks & T' & F' & D'). rewrite R1 in *.
    split; [exact R'|].
    destruct Hstep as [(_ & T1 & D1) | (_ & blk & T1 & Hblk)].
    + exists blocks. rewrite T', T1. split; [reflexivity|].
      split; [exact F'|]. intros E. rewrite (D' E). exact D1.
    + exists (blk :: blocks). cbn [concat].
      rewrite T', T1, <- app_assoc. split; [reflexivity|].
      split; [auto|]. discriminate.
Qed.

End Protocol.

(** * Recovery of the oscillators *)

Section Recovery.

Context {P : Platform}.

(** C4.  The polling loop observes SHUTDOWN_OFLO (bit 1 of STATUS) at
    the test of line 99: in a turn whose first read of STATUS has READY
    clear and whose second read has SHUTDOWN_OFLO set.  In such a turn
    the recovery runs and the loop goes on: after the two reads of
    STATUS the bus sees the reads of ALARMSTOP and FRODETUNE, whose
    values [alarm] and [tune] are what the device answers, then the
    writes ALARMMASK = 0, ALARMSTOP = 0, FRODETUNE = [tune xor alarm],
    FROENABLE = 0x00FFFFFF and INTACK = SHUTDOWN_OFLO, in this order, and
    nothing else; when the next read of STATUS shows READY the loop
    returns there, with these accesses on the bus.  With
    [alarm] = 0x0000A5 and [tune] = 0 the value written to FRODETUNE is
    0x0000A5.  Every run of the loop that returns, and so every block
    read that returns, has put on the bus a sequence of such turns: each
    second read of STATUS that shows SHUTDOWN_OFLO is followed by the
    seven accesses of the recovery. *)
Theorem overflow_recovery fuel w :
  Z.testbit SHUTDOWN_OFLO 1 = true /\
  (forall s1 w1 s2 w2,
     io_read32 (vaddr_add (rng w) RNG_STATUS) w = Ret s1 w1 ->
     Z.land s1 RNG_READY = 0 ->
     io_read32 (vaddr_add (rng w) RNG_STATUS) w1 = Ret s2 w2 ->
     Z.land s2 SHUTDOWN_OFLO <> 0 ->
     exists alarm tune w3,
       fro_recover w2 = Ret tt w3 /\
       poll_ready (S fuel) w = poll_ready fuel w3 /\
       alarm = u32 (fst (dev_read32 (device w2)
                                    (vaddr_add (rng w) RNG_ALARMSTOP))) /\
       tune = u32 (fst (dev_read32
                          (snd (dev_read32 (device w2)
                                           (vaddr_add (rng w) RNG_ALARMSTOP)))
                          (vaddr_add (rng w) RNG_FRODETUNE))) /\
       bus_trace w3 = bus_trace w ++
         [IoRead (vaddr_add (rng w) RNG_STATUS) s1;
          IoRead (vaddr_add (rng w) RNG_STATUS) s2;
          IoRead (vaddr_add (rng w) RNG_ALARMSTOP) alarm;
          IoRead (vaddr_add (rng w) RNG_FRODETUNE) tune;
          IoWrite (vaddr_add (rng w) RNG_ALARMMASK) 0;
          IoWrite (vaddr_add (rng w) RNG_ALARMSTOP) 0;
          IoWrite (vaddr_add (rng w) RNG_FRODETUNE) (Z.lxor tune alarm);
          IoWrite (vaddr_add (rng w) RNG_FROENABLE) 0x00FFFFFF;
          IoWrite (vaddr_add (rng w) RNG_INTACK) SHUTDOWN_OFLO] /\
       (forall s3 w4,
          io_read32 (vaddr_add (rng w) RNG_STATUS) w3 = Ret s3 w4 ->
          Z.land s3 RNG_READY <> 0 ->
          poll_ready (S (S fuel)) w = Ret tt w4 /\
          bus_trace w4 =
            bus_trace w3 ++ [IoRead (vaddr_add (rng w) RNG_STATUS) s3]) /\
       (alarm = 0x0000A5 -> tune = 0x000000 ->
        Z.lxor tune alarm = 0x0000A5)) /\
  (forall w', poll_ready fuel w = Ret tt w' ->
     exists polls,
       bus_trace w' = bus_trace w ++ polls /\ poll_trace (rng w) polls) /\
  (forall ws w', eip76d_rng_read128 fuel w = Ret ws w' ->
     exists blk,
       bus_trace w' = bus_trace w ++ blk /\ block_trace (rng w) blk).
Proof.
  split; [reflexivity|]. split; [|split].
  - intros s1 w1 s2 w2 H1 R1 H2 R2.
    destruct (io_read32_inv _ _ _ _ H1) as (B1 & _).
    destruct (io_read32_inv _ _ _ _ H2) as (B2 & _).
    pose proof (bus_only_trans _ _ _ _ _ B1 B2) as B12.
    assert (Hr1 : rng w1 = rng w) by (destruct B1 as (_ & _ & R & _); exact R).
    destruct (sat_returns _ _ (fro_recover_sat False _ _ _ B12))
      as ([] & w3 & E3 & alarm & tune & _ & _ & B3).
    cbn [app] in B3.
    assert (Hr3 : rng w3 = rng w) by (destruct B3 as (_ & _ & R & _); exact R).
    assert (Turn : forall f, poll_ready (S f) w = poll_ready f w3).
    { intros f. cbn [poll_ready]. unfold bind at 1. unfold reg at 1.
      rewrite (bind_run _ _ _ _ _ H1), R1. cbn [Z.eqb negb].
      unfold bind at 1. unfold reg at 1. rewrite Hr1.
      rewrite (bind_run _ _ _ _ _ H2).
      apply Z.eqb_neq in R2. rewrite R2. cbn [negb].
      exact (bind_run fro_recover (fun _ => poll_ready f) w2 tt w3 E3). }
    exists alarm, tune, w3. split; [exact E3|]. split; [apply Turn|].
    destruct B3 as (T & _ & _ & _ & _ & _ & _ & F).
    cbn [faithful] in F. destruct F as (_ & _ & Fa & Ft & _).
    destruct B2 as (_ & _ & _ & _ & _ & _ & D2 & _).
    destruct B1 as (_ & _ & _ & _ & _ & _ & D1 & _).
    split; [|split; [|split; [exact T|split]]].
    + rewrite D2, D1. exact Fa.
    + rewrite D2, D1. exact Ft.
    + intros s3 w4 H3 R3.
      destruct (io_read32_inv _ _ _ _ H3) as ((T4 & _) & _).
      split; [|exact T4].
      rewrite (Turn (S fuel)). cbn [poll_ready]. unfold bind at 1.
      unfold reg at 1. rewrite Hr3, (bind_run _ _ _ _ _ H3).
      apply Z.eqb_neq in R3. rewrite R3. reflexivity.
    + intros -> ->. reflexivity.
  - intros w' E.
    pose proof (poll_ready_trace fuel w w [] (bus_only_refl w)) as X.
    rewrite E in X. destruct X as (polls & (T & _) & Hp).
    exists polls. split; [exact T | exact Hp].
  - intros ws w' E. pose proof (read128_trace fuel w) as X.
    rewrite E in X. destruct X as (blk & (T & _) & Hb & _).
    exists blk. split; [exact T | exact Hb].
Qed.

End Recovery.

(** C4 on the register model: STATUS shows SHUTDOWN_OFLO with
    ALARMSTOP = 0x0000A5 and FRODETUNE = 0.  The loop returns at its
    third read of STATUS, after the recovery wrote FRODETUNE = 0x0000A5,
    and the block read returns with the recovery on the bus. *)
Lemma overflow_recovery_witness :
  (exists w4,
     poll_ready 2 Scenario.overflow = Ret tt w4 /\
     bus_trace w4 =
       [IoRead (vaddr_add Mock.window RNG_STATUS) SHUTDOWN_OFLO;
        IoRead (vaddr_add Mock.window RNG_STATUS)
               (Z.lor SHUTDOWN_OFLO RNG_READY);
        IoRead (vaddr_add Mock.window RNG_ALARMSTOP) 0x0000A5;
        IoRead (vaddr_add Mock.window RNG_FRODETUNE) 0x000000;
        IoWrite (vaddr_add Mock.window RNG_ALARMMASK) 0;
        IoWrite (vaddr_add Mock.window RNG_ALARMSTOP) 0;
        IoWrite (vaddr_add Mock.window RNG_FRODETUNE) 0x0000A5;
        IoWrite (vaddr_add Mock.window RNG_FROENABLE) 0x00FFFFFF;
        IoWrite (vaddr_add Mock.window RNG_INTACK) SHUTDOWN_OFLO;
        IoRead (vaddr_add Mock.window RNG_STATUS) RNG_READY]) /\
  (exists w',
     eip76d_rng_read128 2 Scenario.overflow = Ret (0, 0, 0, 0) w' /\
     block_trace Mock.window (bus_trace w') /\
     bus_trace w' =
       [IoRead (vaddr_add Mock.window RNG_CONTROL) ENABLE_TRNG;
        IoRead (vaddr_add Mock.window RNG_STATUS) SHUTDOWN_OFLO;
        IoRead (vaddr_add Mock.window RNG_STATUS)
               (Z.lor SHUTDOWN_OFLO RNG_READY)] ++
       recovery Mock.window 0x0000A5 0x000000 ++
       [IoRead (vaddr_add Mock.window RNG_STATUS) RNG_READY;
        IoRead (vaddr_add Mock.window RNG_OUTPUT_0) 0;
        IoRead (vaddr_add Mock.window RNG_OUTPUT_1) 0;
        IoRead (vaddr_add Mock.window RNG_OUTPUT_2) 0;
        IoRead (vaddr_add Mock.window RNG_OUTPUT_3) 0;
        IoWrite (vaddr_add Mock.window RNG_INTACK) RNG_READY]).
Proof.
  split.
  - set (a := vaddr_add (rng Scenario.overflow) RNG_STATUS).
    set (w1 := world_of (io_read32 a Scenario.overflow) Scenario.overflow).
    set (w2 := world_of (io_read32 a w1) w1).
    destruct (proj1 (proj2 (overflow_recovery 0 Scenario.overflow))
                2 w1 3 w2)
      as (alarm & tune & w3 & E & _ & Ha & Ht & T & Next & _).
    + apply returned_world_of. vm_compute. reflexivity.
    + vm_compute. reflexivity.
    + apply returned_world_of. vm_compute. reflexivity.
    + vm_compute. congruence.
    + vm_compute in Ha, Ht. subst alarm tune.
      assert (W3 : w3 = world_of (fro_recover w2) w2)
        by (rewrite E; reflexivity).
      destruct (Next 1 (world_of (io_read32 a w3) w3)) as (R & T4).
      * apply returned_world_of. rewrite W3. vm_compute. reflexivity.
      * vm_compute. congruence.
      * eexists. split; [exact R|]. rewrite T4, T. reflexivity.
  - set (o := eip76d_rng_read128 2 Scenario.overflow).
    assert (E : o = Ret (0, 0, 0, 0) (world_of o Scenario.overflow))
      by (apply returned_world_of; vm_compute; reflexivity).
    destruct (proj2 (proj2 (proj2 (overflow_recovery 2 Scenario.overflow)))
                _ _ E) as (blk & T & Hb).
    exists (world_of o Scenario.overflow). split; [exact E|]. split.
    + rewrite T. exact Hb.
    + vm_compute. reflexivity.
Defined.

Section Composition.

Context {P : Platform}.

Lemma fetch_loop_shift fuel k : forall todo buf bp w,
  fetch_loop fuel buf todo bp w = fetch_loop fuel (buf + k) todo (bp - k) w.
Proof.
  induction todo as [|todo IH]; intros buf bp w; cbn [fetch_loop];
    [reflexivity|].
  unfold bind.
  assert (E : fetch_byte fuel buf bp w = fetch_byte fuel (buf + k) (bp - k) w).
  { unfold fetch_byte. replace (buf + k + (bp - k)) with (buf + bp) by lia.
    reflexivity. }
  rewrite E. destruct (fetch_byte fuel (buf + k) (bp - k) w); try reflexivity.
  rewrite IH. f_equal. lia.
Qed.

Lemma fetch_loop_app fuel buf m : forall n bp w,
  fetch_loop fuel buf (n + m) bp w =
  bind (fetch_loop fuel buf n bp)
       (fun _ => fetch_loop fuel buf m (bp + Z.of_nat n)) w.
Proof.
  induction n as [|n IH]; intros bp w.
  - cbn. rewrite Z.add_0_r. reflexivity.
  - cbn [Nat.add fetch_loop]. unfold bind.
    destruct (fetch_byte fuel buf bp w) as [[] w1| |]; try reflexivity.
    rewrite IH. unfold bind.
    destruct (fetch_loop fuel buf n (bp + 1) w1); try reflexivity.
    f_equal. lia.
Qed.

End Composition.

(** * Further properties, stated *)

Section Further.

Context {P : Platform}.

Lemma produced_bytes base tr : byte_list (produced base tr).
Proof.
  unfold byte_list, produced. induction tr as [|e tr IH]; [constructor|].
  cbn [List.flat_map]. apply Forall_app_2; [|exact IH].
  destruct e as [a v|a v]; [|constructor]. cbn [entropy_of].
  destruct (is_output base a); [|constructor].
  assert (Low : forall x, 0 <= Z.land x 0xff < 256).
  { intros x. change 0xff with (Z.ones 8). rewrite Z.land_ones by lia.
    apply Z.mod_pos_bound. lia. }
  unfold le_bytes. repeat (apply Forall_cons_2; [apply Low|]). constructor.
Qed.

(** What [fetched] says about the buffer. *)
Lemma fetched_buffer buf (len : Z) w w' :
  fetched buf 0 (Z.to_nat len) w w' ->
  exists delta,
    bus_trace w' = bus_trace w ++ delta /\
    (forall i : nat, Z.of_nat i < len ->
       is_Some (ram w' !! (buf + Z.of_nat i)) /\
       ram w' !! (buf + Z.of_nat i) =
         (pending w ++ produced (rng w) delta) !! i) /\
    (byte_list (pending w) ->
     byte_list (pending w') /\
     forall i : nat, Z.of_nat i < len ->
       exists b, ram w' !! (buf + Z.of_nat i) = Some b /\ 0 <= b < 256).
Proof.
  intros (bs & delta & _ & _ & T & Lb & M & _ & C & _).
  rewrite Z.add_0_r in M. exists delta. split; [exact T|].
  assert (Hin : forall i : nat, Z.of_nat i < len ->
            ram w' !! (buf + Z.of_nat i) = bs !! i /\ (i < length bs)%nat).
  { intros i Hi. assert (i < length bs)%nat by lia.
    split; [|assumption]. rewrite M. apply store_bytes_inside. assumption. }
  split.
  - intros i Hi. destruct (Hin i Hi) as (-> & Hl). split.
    + apply lookup_lt_is_Some_2. exact Hl.
    + rewrite <- C. symmetry. apply lookup_app_l. exact Hl.
  - intros Hb.
    assert (Hall : byte_list (bs ++ pending w')).
    { rewrite C. apply Forall_app_2; [exact Hb | apply produced_bytes]. }
    apply Forall_app in Hall. destruct Hall as (Hbs & Hpend).
    split; [exact Hpend|]. intros i Hi. destruct (Hin i Hi) as (E & Hl).
    destruct (lookup_lt_is_Some_2 bs i Hl) as [b Hb'].
    exists b. split; [congruence|].
    unfold byte_list in Hbs. rewrite Forall_lookup in Hbs. exact (Hbs i b Hb').
Qed.

(** X1.  When the polling loop of the block read leaves, what it put on
    the bus is a sequence of turns followed by the read of STATUS that
    showed READY: a turn is two reads of STATUS, the first with READY
    clear, followed by the seven accesses of the recovery exactly when
    the second showed SHUTDOWN_OFLO.  The loop reads no output register,
    never acknowledges READY, and leaves the callers' memory, the FIFO
    and the cursor as they were. *)
Theorem polling_follows_protocol fuel w w' :
  poll_ready fuel w = Ret tt w' ->
  exists polls,
    bus_trace w' = bus_trace w ++ polls /\
    poll_trace (rng w) polls /\
    output_reads (rng w) polls = 0%nat /\ ready_acks (rng w) polls = 0%nat /\
    ram w' = ram w /\ fifo w' = fifo w /\ fifo_pos w' = fifo_pos w.
Proof.
  intros E. pose proof (poll_ready_trace fuel w w [] (bus_only_refl w)) as X.
  rewrite E in X. destruct X as (polls & B & Hp).
  destruct B as (T & Hr & _ & _ & Hf & Hc & _).
  destruct (poll_trace_counts _ _ Hp) as (_ & Ha & Ho).
  exists polls. cbn [app] in T. auto 10.
Qed.


(** X3.  On a device that is enabled and ready the block read needs one
    poll: when the read of CONTROL has ENABLE set and the following read
    of STATUS has READY set, the block read returns, for every bound of
    one poll or more, after exactly seven accesses: CONTROL, STATUS, the
    four output registers, and the acknowledgement. *)
Theorem ready_device_is_read_at_once fuel w :
  let control := dev_read32 (device w) (vaddr_add (rng w) RNG_CONTROL) in
  let status := dev_read32 (snd control) (vaddr_add (rng w) RNG_STATUS) in
  Z.land (u32 (fst control)) ENABLE_TRNG <> 0 ->
  Z.land (u32 (fst status)) RNG_READY <> 0 ->
  exists a b c d w',
    eip76d_rng_read128 (S fuel) w = Ret (a, b, c, d) w' /\
    bus_trace w' = bus_trace w ++
      [IoRead (vaddr_add (rng w) RNG_CONTROL) (u32 (fst control));
       IoRead (vaddr_add (rng w) RNG_STATUS) (u32 (fst status));
       IoRead (vaddr_add (rng w) RNG_OUTPUT_0) a;
       IoRead (vaddr_add (rng w) RNG_OUTPUT_1) b;
       IoRead (vaddr_add (rng w) RNG_OUTPUT_2) c;
       IoRead (vaddr_add (rng w) RNG_OUTPUT_3) d;
       IoWrite (vaddr_add (rng w) RNG_INTACK) RNG_READY].
Proof.
  intros control status Hen Hrdy.
  assert (X : sat False (eip76d_rng_read128 (S fuel) w) (fun ws w' =>
    exists a b c d, ws = (a, b, c, d) /\
    bus_trace w' = bus_trace w ++
      [IoRead (vaddr_add (rng w) RNG_CONTROL) (u32 (fst control));
       IoRead (vaddr_add (rng w) RNG_STATUS) (u32 (fst status));
       IoRead (vaddr_add (rng w) RNG_OUTPUT_0) a;
       IoRead (vaddr_add (rng w) RNG_OUTPUT_1) b;
       IoRead (vaddr_add (rng w) RNG_OUTPUT_2) c;
       IoRead (vaddr_add (rng w) RNG_OUTPUT_3) d;
       IoWrite (vaddr_add (rng w) RNG_INTACK) RNG_READY])).
  { unfold eip76d_rng_read128, ensure_enabled, eip76d_rng_is_enabled.
    pose proof (bus_only_refl w) as B.
    apply sat_bind. apply sat_bind. bus_step B. bus_step B. rename v into cv.
    apply sat_ret.
    assert (Ec : cv = u32 (fst control)).
    { destruct B as (_ & _ & _ & _ & _ & _ & _ & F). cbn in F. tauto. }
    subst cv. apply Z.eqb_neq in Hen. rewrite Hen. cbn [negb]. apply sat_ret.
    apply sat_bind. cbn [poll_ready].
    bus_step B. bus_step B. rename v into sv.
    assert (Es : sv = u32 (fst status)).
    { destruct B as (_ & _ & _ & _ & _ & _ & _ & F). cbn in F. tauto. }
    subst sv. apply Z.eqb_neq in Hrdy. rewrite Hrdy. cbn [negb]. apply sat_ret.
    sat_use (drain_and_ack_sat False _ _ _ B).
    intros ws w' (a & b & c & d & -> & _ & B').
    exists a, b, c, d. split; [reflexivity|].
    destruct B' as (T & _). exact T. }
  destruct (sat_returns _ _ X) as (ws & w' & E & a & b & c & d & -> & T).
  exists a, b, c, d, w'. auto.
Qed.

(** X4.  What a call of [hw_get_random_bytes] that returns has put on the
    bus is a sequence of block-read transactions and nothing else: as
    many as the cursor passed multiples of sixteen, each with its four
    reads of output registers and its one acknowledgement of READY. *)
Theorem fetch_is_a_sequence_of_transactions fuel buf len w r w' :
  wf w -> 0 <= len ->
  hw_get_random_bytes fuel buf len w = Ret r w' ->
  exists blocks,
    bus_trace w' = bus_trace w ++ concat blocks /\
    Forall (block_trace (rng w)) blocks /\
    Z.of_nat (length blocks) =
      ceil_div (fifo_pos w + len) 16 - ceil_div (fifo_pos w) 16 /\
    output_reads (rng w) (concat blocks) = (4 * length blocks)%nat /\
    ready_acks (rng w) (concat blocks) = length blocks.
Proof.
  intros Hwf Hlen E.
  pose proof (hw_get_random_bytes_sat fuel buf len w Hwf) as X.
  rewrite E in X.
  destruct X as (_ & bs & delta & _ & _ & T & _ & _ & _ & _ & B & _).
  unfold hw_get_random_bytes in E.
  apply bind_ret_inv in E. destruct E as ([] & w1 & E1 & E).
  unfold ret in E. assert (w1 = w') as -> by congruence.
  destruct (fetch_loop_bus _ _ _ _ _ _ E1) as (_ & blocks & T' & F & _).
  assert (delta = concat blocks) as ->.
  { rewrite T in T'. apply app_inv_head in T'. exact T'. }
  destruct (blocks_counts _ _ F) as (Hb & Ha & Ho).
  exists blocks. rewrite Hb, Z2Nat.id in B by exact Hlen. auto 10.
Qed.

(** X5.  Fetching [n + m] bytes into a buffer is fetching [n] bytes into
    it and then [m] bytes into the rest: the same outcome, with the same
    memory, the same FIFO and cursor and the same accesses on the bus. *)
Theorem fetch_in_two_parts fuel buf n m w :
  0 <= n -> 0 <= m ->
  hw_get_random_bytes fuel buf (n + m) w =
  bind (hw_get_random_bytes fuel buf n)
       (fun _ => hw_get_random_bytes fuel (buf + n) m) w.
Proof.
  intros Hn Hm. unfold hw_get_random_bytes.
  rewrite Z2Nat.inj_add by assumption. unfold bind at 1.
  rewrite fetch_loop_app. unfold bind, ret.
  destruct (fetch_loop fuel buf (Z.to_nat n) 0 w) as [[] w1| |];
    try reflexivity.
  rewrite (fetch_loop_shift fuel n (Z.to_nat m) buf).
  replace (0 + Z.of_nat (Z.to_nat n) - n) with 0 by lia. reflexivity.
Qed.

(** X6.  The buffer of a call that returns holds, byte for byte and in
    order, the first [len] bytes of the stream made of the bytes that
    were pending in the FIFO followed by the bytes the call read from
    the device.  When the device answers, the call returns with such a
    buffer. *)
Theorem fetch_hands_out_the_stream_in_order :
  (forall fuel buf len w r w',
     wf w -> hw_get_random_bytes fuel buf len w = Ret r w' ->
     exists delta,
       bus_trace w' = bus_trace w ++ delta /\
       forall i : nat, Z.of_nat i < len ->
         is_Some (ram w' !! (buf + Z.of_nat i)) /\
         ram w' !! (buf + Z.of_nat i) =
           (pending w ++ produced (rng w) delta) !! i) /\
  (forall K base good, responsive K base good ->
   forall buf len w, wf w -> rng w = base -> good (device w) ->
     exists w' delta,
       hw_get_random_bytes K buf len w = Ret TEE_SUCCESS w' /\
       bus_trace w' = bus_trace w ++ delta /\
       forall i : nat, Z.of_nat i < len ->
         is_Some (ram w' !! (buf + Z.of_nat i)) /\
         ram w' !! (buf + Z.of_nat i) =
           (pending w ++ produced (rng w) delta) !! i).
Proof.
  split.
  - intros fuel buf len w r w' Hwf E.
    pose proof (hw_get_random_bytes_sat fuel buf len w Hwf) as X.
    rewrite E in X. destruct X as (_ & X).
    destruct (fetched_buffer _ _ _ _ X) as (delta & T & Hb & _). eauto.
  - intros K base good Hresp buf len w Hwf Hrng Hgood.
    destruct (sat_returns _ _
      (hw_get_random_bytes_returns K base good buf len w Hresp Hwf Hrng Hgood))
      as (r & w' & E & -> & _ & X).
    destruct (fetched_buffer _ _ _ _ X) as (delta & T & Hb & _). eauto.
Qed.

(** X7.  The bytes handed out are bytes: nothing is pending at boot, and
    when the bytes pending in the FIFO are in [0, 256), a call that
    returns has stored values in [0, 256) in all of its buffer and
    leaves pending bytes in [0, 256). *)
Theorem fetch_hands_out_bytes :
  (forall d m, pending (boot d m) = []) /\
  (forall fuel buf len w r w',
     wf w -> byte_list (pending w) ->
     hw_get_random_bytes fuel buf len w = Ret r w' ->
     byte_list (pending w') /\
     forall i : nat, Z.of_nat i < len ->
       exists b, ram w' !! (buf + Z.of_nat i) = Some b /\ 0 <= b < 256).
Proof.
  split; [reflexivity|].
  intros fuel buf len w r w' Hwf Hb E.
  pose proof (hw_get_random_bytes_sat fuel buf len w Hwf) as X.
  rewrite E in X. destruct X as (_ & X).
  destruct (fetched_buffer _ _ _ _ X) as (delta & _ & _ & H). exact (H Hb).
Qed.

(** X9.  [eip76d_rng_init] touches neither the FIFO nor the callers'
    memory: it returns with the same memory, FIFO, cursor, pending bytes
    and mutex, and one more line on the console.  Initialising again
    does not discard the bytes read before. *)
Theorem init_keeps_the_fifo w :
  exists w',
    eip76d_rng_init w = Ret TEE_SUCCESS w' /\
    ram w' = ram w /\ fifo w' = fifo w /\ fifo_pos w' = fifo_pos w /\
    pending w' = pending w /\ fifo_lock w' = fifo_lock w /\
    (wf w -> wf w') /\
    console w' = console w ++ ["EIP76D TRNG initialized"%string].
Proof.
  eexists. split; [reflexivity|]. unfold wf, pending. cbn. auto 10.
Qed.

(** X10.  A request that the pending bytes can serve does not touch the
    device: from a cursor above zero, a call for at most the bytes left
    in the FIFO returns for every bound of polls, zero included, with no
    access on the bus, the same device and the same FIFO, and its buffer
    holds the bytes of the FIFO from the cursor on. *)
Theorem fetch_from_pending_bytes fuel buf len w :
  wf w -> 0 < fifo_pos w -> 0 <= len -> fifo_pos w + len <= 16 ->
  exists w',
    hw_get_random_bytes fuel buf len w = Ret TEE_SUCCESS w' /\
    bus_trace w' = bus_trace w /\ device w' = device w /\
    fifo w' = fifo w /\
    forall i : nat, Z.of_nat i < len ->
      is_Some (ram w' !! (buf + Z.of_nat i)) /\
      ram w' !! (buf + Z.of_nat i) =
        fifo w !! (Z.to_nat (fifo_pos w) + i)%nat.
Proof.
  intros Hwf Hp Hlen Hfit.
  assert (T : sat False (fetch_loop fuel buf (Z.to_nat len) 0 w)
                (fun _ _ => True)).
  { apply fetch_loop_at_hand; [exact Hwf|]. right. lia. }
  destruct (sat_returns _ _ T) as ([] & w' & EL & _).
  assert (E : hw_get_random_bytes fuel buf len w = Ret TEE_SUCCESS w').
  { unfold hw_get_random_bytes. rewrite (bind_run _ _ _ _ _ EL). reflexivity. }
  pose proof (hw_get_random_bytes_sat fuel buf len w Hwf) as X.
  rewrite E in X. destruct X as (_ & X).
  destruct (fetched_buffer _ _ _ _ X) as (delta & Td & Hb & _).
  destruct X as (bs & delta' & _ & _ & Td' & _ & _ & _ & _ & B & N & F).
  assert (delta' = delta) as ->.
  { rewrite Td in Td'. apply app_inv_head in Td'. congruence. }
  assert (Hz : block_reads (rng w) delta = 0%nat).
  { rewrite Z2Nat.id in B by exact Hlen. unfold ceil_div in B.
    destruct Hwf as (_ & _ & Rg). clear - B Rg Hp Hlen Hfit.
    Z.div_mod_to_equations. lia. }
  assert (Hd : produced (rng w) delta = [])
    by (apply length_zero_iff_nil; rewrite N, Hz; reflexivity).
  destruct (fetch_loop_bus _ _ _ _ _ _ EL) as (_ & blocks & Tb & Fb & Db).
  assert (delta = concat blocks) as Hc.
  { rewrite Td in Tb. apply app_inv_head in Tb. exact Tb. }
  destruct (blocks_counts _ _ Fb) as (Hn & _). rewrite <- Hc, Hz in Hn.
  assert (blocks = []) as Hnil by (apply length_zero_iff_nil; congruence).
  exists w'. split; [exact E|].
  split; [rewrite Tb, Hnil; apply app_nil_r|].
  split; [exact (Db Hnil)|]. split; [exact (F Hz)|].
  intros i Hi. destruct (Hb i Hi) as (Hs & Hv). split; [exact Hs|].
  rewrite Hv, Hd, app_nil_r. unfold pending.
  destruct (fifo_pos w =? 0) eqn:Z0; [apply Z.eqb_eq in Z0; lia|].
  apply lookup_drop.
Qed.

End Further.

(** * The further properties on the register model *)

(** X1: three polls of a device that reports a shutdown overflow. *)
Lemma polling_follows_protocol_witness :
  exists w' polls,
    poll_ready 3 Scenario.overflow = Ret tt w' /\
    bus_trace w' = bus_trace Scenario.overflow ++ polls /\
    poll_trace (rng Scenario.overflow) polls /\
    ready_acks (rng Scenario.overflow) polls = 0%nat.
Proof.
  assert (E : poll_ready 3 Scenario.overflow =
              Ret tt (world_of (poll_ready 3 Scenario.overflow)
                               Scenario.overflow))
    by (apply returned_world_of; vm_compute; reflexivity).
  destruct (polling_follows_protocol _ _ _ E)
    as (polls & T & Hp & _ & Ha & _).
  eexists _, polls. split; [exact E|]. split; [exact T|].
  split; [exact Hp | exact Ha].
Defined.


(** X3: a block read of a device that is enabled and ready. *)
Lemma ready_device_is_read_at_once_witness :
  exists a b c d w',
    eip76d_rng_read128 1 Scenario.polled = Ret (a, b, c, d) w' /\
    length (bus_trace w') = (length (bus_trace Scenario.polled) + 7)%nat.
Proof.
  destruct (ready_device_is_read_at_once 0 Scenario.polled)
    as (a & b & c & d & w' & E & T);
    [vm_compute; congruence | vm_compute; congruence |].
  exists a, b, c, d, w'. split; [exact E|].
  rewrite T, length_app. reflexivity.
Defined.

(** X4: the second of two fetches of ten bytes is one transaction. *)
Lemma fetch_is_a_sequence_of_transactions_witness :
  exists w' blocks,
    hw_get_random_bytes 2 0x2000 10 Scenario.after_ten = Ret TEE_SUCCESS w' /\
    bus_trace w' = bus_trace Scenario.after_ten ++ concat blocks /\
    length blocks = 1%nat /\
    ready_acks (rng Scenario.after_ten) (concat blocks) = length blocks.
Proof.
  assert (E : hw_get_random_bytes 2 0x2000 10 Scenario.after_ten =
              Ret TEE_SUCCESS
                (world_of (hw_get_random_bytes 2 0x2000 10 Scenario.after_ten)
                          Scenario.after_ten))
    by (apply returned_world_of; vm_compute; reflexivity).
  destruct (fetch_is_a_sequence_of_transactions
              2 0x2000 10 Scenario.after_ten TEE_SUCCESS _
              MockFacts.wf_after_ten ltac:(lia) E)
    as (blocks & T & _ & Hn & _ & Ha).
  eexists _, blocks. split; [exact E|]. split; [exact T|].
  split; [|exact Ha].
  replace (fifo_pos Scenario.after_ten) with 10 in Hn
    by (vm_compute; reflexivity).
  change (Z.of_nat (length blocks) = 1) in Hn. lia.
Defined.

(** X5: twenty bytes are ten bytes and ten bytes. *)
Lemma fetch_in_two_parts_witness :
  hw_get_random_bytes 2 0x1000 (10 + 10) Scenario.ready =
  bind (hw_get_random_bytes 2 0x1000 10)
       (fun _ => hw_get_random_bytes 2 (0x1000 + 10) 10) Scenario.ready.
Proof.
  apply (fetch_in_two_parts 2 0x1000 10 10 Scenario.ready); lia.
Defined.

(** X6: four bytes after initialisation. *)
Lemma fetch_hands_out_the_stream_in_order_witness :
  exists w' delta,
    hw_get_random_bytes 2 0x1000 4 Scenario.ready = Ret TEE_SUCCESS w' /\
    ram w' !! (0x1000 + Z.of_nat 3) =
      (pending Scenario.ready ++ produced (rng Scenario.ready) delta) !! 3%nat.
Proof.
  destruct (@fetch_hands_out_the_stream_in_order Scenario.mapped)
    as (_ & Total).
  destruct (Total 2%nat Mock.window (fun _ => True)
              (MockFacts.read128_responsive Mock.window) 0x1000 4
              Scenario.ready MockFacts.wf_ready)
    as (w' & delta & E & _ & Hb); [vm_compute; reflexivity | exact I |].
  exists w', delta. split; [exact E|]. apply (Hb 3%nat). lia.
Defined.

(** X7: the four bytes are bytes. *)
Lemma fetch_hands_out_bytes_witness :
  exists w' b,
    hw_get_random_bytes 2 0x1000 4 Scenario.ready = Ret TEE_SUCCESS w' /\
    ram w' !! (0x1000 + Z.of_nat 3) = Some b /\ 0 <= b < 256.
Proof.
  assert (E : hw_get_random_bytes 2 0x1000 4 Scenario.ready =
              Ret TEE_SUCCESS
                (world_of (hw_get_random_bytes 2 0x1000 4 Scenario.ready)
                          Scenario.ready))
    by (apply returned_world_of; vm_compute; reflexivity).
  destruct (@fetch_hands_out_bytes Scenario.mapped) as (_ & Bytes).
  destruct (Bytes _ _ _ _ _ _ MockFacts.wf_ready
              ltac:(unfold byte_list;
                    replace (pending Scenario.ready) with (@nil Z)
                      by (vm_compute; reflexivity);
                    constructor) E)
    as (_ & Hb).
  destruct (Hb 3%nat ltac:(lia)) as (b & Hl & Hr).
  eexists _, b. split; [exact E|]. auto.
Defined.

(** X9: initialising again after ten bytes were fetched. *)
Lemma init_keeps_the_fifo_witness :
  exists w',
    eip76d_rng_init Scenario.after_ten = Ret TEE_SUCCESS w' /\
    fifo_pos w' = 10 /\ wf w'.
Proof.
  destruct (init_keeps_the_fifo Scenario.after_ten)
    as (w' & E & _ & _ & Hp & _ & _ & Hwf & _).
  exists w'. split; [exact E|]. split.
  - rewrite Hp. vm_compute. reflexivity.
  - apply Hwf. exact MockFacts.wf_after_ten.
Defined.

(** X10: six bytes from cursor 10, without a poll. *)
Lemma fetch_from_pending_bytes_witness :
  exists w',
    hw_get_random_bytes 0 0x2000 6 Scenario.after_ten = Ret TEE_SUCCESS w' /\
    bus_trace w' = bus_trace Scenario.after_ten /\
    ram w' !! (0x2000 + Z.of_nat 5) = Some 0x0F.
Proof.
  destruct (fetch_from_pending_bytes 0 0x2000 6 Scenario.after_ten
              MockFacts.wf_after_ten)
    as (w' & E & T & _ & _ & Hb);
    [vm_compute; reflexivity | lia | vm_compute; congruence |].
  exists w'. split; [exact E|]. split; [exact T|].
  destruct (Hb 5%nat ltac:(lia)) as (_ & ->). vm_compute. reflexivity.
Defined.
